(** * Access control of the team-collaboration backend (server/routes.ts)

    A shallow embedding of the route handlers registered by [registerRoutes]
    and the properties of its authorization layer.  The handlers are pure
    functions from a request, the session and the state of the persistence
    layer to a response and the next state. *)

From stdpp Require Import base option list strings numbers gmap.

Set Warnings "-register-all".
#[local] Open Scope Z_scope.

(** ** JavaScript values *)

(** A number as [parseInt] returns it: an integer, or [NaN] for input that
    does not start with a digit. *)
Inductive num :=
| NaN
| Int (z : Z).

#[global] Instance num_eq_dec : EqDecision num.
Proof. solve_decision. Defined.

(** [if (n)]: [NaN] and [0] are falsy. *)
Definition num_truthy (n : num) : bool :=
  match n with
  | NaN => false
  | Int z => bool_decide (z ≠ 0)
  end.

(** [a === b] on numbers: [NaN] is equal to nothing. *)
Definition num_seq (a b : num) : bool :=
  match a, b with
  | Int x, Int y => bool_decide (x = y)
  | _, _ => false
  end.

(** JSON documents.  [JDate v] stands for [new Date(v)]; an object is a
    finite map from keys to values. *)
Inductive json :=
| JNull
| JBool (b : bool)
| JNum (z : Z)
| JStr (s : string)
| JDate (v : json)
| JArr (l : list json)
| JObj (o : gmap string json).

Abbreviation obj := (gmap string json).

(** Truthiness of a property read, [o.k], which is [undefined] when absent. *)
Definition truthy (v : option json) : bool :=
  match v with
  | None | Some JNull => false
  | Some (JBool b) => b
  | Some (JNum z) => bool_decide (z ≠ 0)
  | Some (JStr s) => bool_decide (s ≠ "")
  | Some (JDate _) | Some (JArr _) | Some (JObj _) => true
  end.

(** The number a property holds; anything that is not a number is no id. *)
Definition to_num (v : option json) : num :=
  match v with
  | Some (JNum z) => Int z
  | _ => NaN
  end.

Definition to_str (v : option json) : string :=
  match v with
  | Some (JStr s) => s
  | _ => ""
  end.

(** Does the key [k] occur anywhere in the document? *)
Fixpoint mentions (k : string) (j : json) : bool :=
  match j with
  | JDate v => mentions k v
  | JArr l => existsb (mentions k) l
  | JObj o =>
      map_fold (λ k' v acc, acc || bool_decide (k' = k) || mentions k v) false o
  | _ => false
  end.

Definition jopt {A} (f : A → json) (o : option A) : json :=
  match o with
  | Some a => f a
  | None => JNull
  end.

(** [{ message: s }] *)
Definition message (s : string) : json := JObj {[ "message" := JStr s ]}.

(** ** Persisted entities *)

(** Modelled from the spec: the row types that [routes.ts] imports from
    [@shared/schema].  The fields are those of section 3 of the
    specification; the handlers read the identifiers, the foreign keys, the
    roles and the author fields. *)
Record User := {
  user_id : Z;
  user_username : string;
  user_email : string;
  user_password : string;
  user_fullName : option string;
  user_avatar : option string;
  user_role : string;
  user_userType : string
}.

Record Team := {
  team_id : Z;
  team_name : string;
  team_description : option string;
  team_createdBy : Z
}.

Record TeamMember := {
  member_teamId : Z;
  member_userId : Z;
  member_role : string
}.

Record Project := {
  project_id : Z;
  project_teamId : Z;
  project_name : string;
  project_startDate : option string;
  project_dueDate : option string
}.

Record Task := {
  task_id : Z;
  task_projectId : Z;
  task_title : string;
  task_status : string;
  task_order : Z;
  task_assigneeId : option Z;
  task_dueDate : option string
}.

Record Comment := {
  comment_id : Z;
  comment_taskId : Z;
  comment_userId : Z;
  comment_content : string
}.

Record File := {
  file_id : Z;
  file_projectId : Z;
  file_taskId : option Z;
  file_uploadedBy : Z;
  file_name : string
}.

Record Message := {
  message_id : Z;
  message_teamId : Z;
  message_userId : Z;
  message_content : string
}.

(** A message as [getMessagesByTeam] returns it: the handler reads
    [message.user] and takes [password] out of it, so the embedded user is a
    full row. *)
Record MessageWithUser := {
  mu_message : Message;
  mu_user : User
}.

(** Modelled from the spec: the element type of [getCommentsByTask], declared
    in [./storage].  A comment carries its author the way a message does: the
    specification counts comments among the resources that embed a user, and
    [POST /api/tasks/:taskId/comments] answers with a comment extended by
    [user]. *)
Record CommentWithUser := {
  cu_comment : Comment;
  cu_user : User
}.

(** ** Entities as JavaScript objects *)

Definition user_obj (u : User) : obj :=
  {[ "id" := JNum (user_id u);
     "username" := JStr (user_username u);
     "email" := JStr (user_email u);
     "password" := JStr (user_password u);
     "fullName" := jopt JStr (user_fullName u);
     "avatar" := jopt JStr (user_avatar u);
     "role" := JStr (user_role u);
     "userType" := JStr (user_userType u) ]}.

Definition team_obj (t : Team) : obj :=
  {[ "id" := JNum (team_id t);
     "name" := JStr (team_name t);
     "description" := jopt JStr (team_description t);
     "createdBy" := JNum (team_createdBy t) ]}.

Definition member_obj (m : TeamMember) : obj :=
  {[ "teamId" := JNum (member_teamId m);
     "userId" := JNum (member_userId m);
     "role" := JStr (member_role m) ]}.

Definition project_obj (p : Project) : obj :=
  {[ "id" := JNum (project_id p);
     "teamId" := JNum (project_teamId p);
     "name" := JStr (project_name p);
     "startDate" := jopt JStr (project_startDate p);
     "dueDate" := jopt JStr (project_dueDate p) ]}.

Definition task_obj (t : Task) : obj :=
  {[ "id" := JNum (task_id t);
     "projectId" := JNum (task_projectId t);
     "title" := JStr (task_title t);
     "status" := JStr (task_status t);
     "order" := JNum (task_order t);
     "assigneeId" := jopt JNum (task_assigneeId t);
     "dueDate" := jopt JStr (task_dueDate t) ]}.

Definition comment_obj (c : Comment) : obj :=
  {[ "id" := JNum (comment_id c);
     "taskId" := JNum (comment_taskId c);
     "userId" := JNum (comment_userId c);
     "content" := JStr (comment_content c) ]}.

Definition file_obj (f : File) : obj :=
  {[ "id" := JNum (file_id f);
     "projectId" := JNum (file_projectId f);
     "taskId" := jopt JNum (file_taskId f);
     "uploadedBy" := JNum (file_uploadedBy f);
     "name" := JStr (file_name f) ]}.

Definition message_obj (m : Message) : obj :=
  {[ "id" := JNum (message_id m);
     "teamId" := JNum (message_teamId m);
     "userId" := JNum (message_userId m);
     "content" := JStr (message_content m) ]}.

(** [{ ...message, user }] as the storage layer hands it out. *)
Definition message_with_user_obj (m : MessageWithUser) : obj :=
  <[ "user" := JObj (user_obj (mu_user m)) ]> (message_obj (mu_message m)).

Definition comment_with_user_obj (c : CommentWithUser) : obj :=
  <[ "user" := JObj (user_obj (cu_user c)) ]> (comment_obj (cu_comment c)).

(** [const { password, ...userWithoutPassword } = user] *)
Definition userWithoutPassword (user : obj) : obj := delete "password" user.

(** ** The persistence layer *)

(** The interface of [storage] as the handlers call it, over an abstract
    state [S].  A reader takes the state; a writer also returns the next
    state.  Rows to insert and patches are the objects the handlers build
    from [req.body]. *)
Class Storage (S : Type) := {
  getUser : S → num → option User;
  getUserByUsername : S → string → option User;
  getUserByEmail : S → string → option User;
  getAllUsers : S → list User;
  createUser : S → obj → S * User;
  updateUser : S → num → obj → S * option User;
  deleteUser : S → num → S * bool;

  getTeam : S → num → option Team;
  getTeamsByUser : S → num → list Team;
  createTeam : S → obj → S * Team;
  updateTeam : S → num → obj → S * option Team;
  deleteTeam : S → num → S * bool;

  getTeamMembers : S → num → list TeamMember;
  addTeamMember : S → obj → S * TeamMember;
  removeTeamMember : S → num → num → S * bool;

  getProject : S → num → option Project;
  getProjectsByTeam : S → num → list Project;
  createProject : S → obj → S * Project;
  updateProject : S → num → obj → S * option Project;
  deleteProject : S → num → S * bool;

  getTask : S → num → option Task;
  getTasksByProject : S → num → list Task;
  getTasksByAssignee : S → num → list Task;
  createTask : S → obj → S * Task;
  updateTask : S → num → obj → S * option Task;
  updateTaskStatus : S → num → option json → option json → S * option Task;
  deleteTask : S → num → S * bool;

  getComment : S → num → option Comment;
  getCommentsByTask : S → num → list CommentWithUser;
  createComment : S → obj → S * Comment;
  deleteComment : S → num → S * bool;

  getFile : S → num → option File;
  getFilesByProject : S → num → list File;
  getFilesByTask : S → num → list File;
  createFile : S → obj → S * File;
  deleteFile : S → num → S * bool;

  getMessage : S → num → option Message;
  getMessagesByTeam : S → num → list MessageWithUser;
  createMessage : S → obj → S * Message;
  deleteMessage : S → num → S * bool
}.

(** The result of [schema.parse]: the parsed body, or the issues of the
    [ZodError] it throws. *)
Inductive ParseResult :=
| ParseOk (data : obj)
| ZodError (errors : json).

(** The request-body schemas of [@shared/schema]; validation is outside of the
    handlers, which only see its verdict. *)
Class Schemas := {
  insertUserSchema : obj → ParseResult;
  insertTeamSchema : obj → ParseResult;
  insertTeamMemberSchema : obj → ParseResult;
  insertProjectSchema : obj → ParseResult;
  insertTaskSchema : obj → ParseResult;
  insertCommentSchema : obj → ParseResult;
  insertFileSchema : obj → ParseResult;
  (** [insertMessageSchema.omit({ teamId: true, userId: true })] *)
  insertMessageSchema_omit : obj → ParseResult
}.

(** ** Requests and responses *)

Record Response := {
  status : Z;
  body : json
}.

(** A request: the route, its path and query parameters after [parseInt]
    and its JSON body.  A query parameter is [None] when the query string
    does not give it a non-empty value. *)
Inductive Request :=
| PostAuthLogin (body : obj)
| PostAuthLogout
| GetAuthMe
| GetUsers
| PostUsers (body : obj)
| GetUser (id : num)
| PutUser (id : num) (body : obj)
| DeleteUser (id : num)
| GetTeams
| PostTeams (body : obj)
| GetTeam (id : num)
| PutTeam (id : num) (body : obj)
| DeleteTeam (id : num)
| GetTeamMembers (id : num)
| GetTeamMembersCurrent (id : num)
| PostTeamMembers (id : num) (body : obj)
| DeleteTeamMember (teamId userId : num)
| GetProjects (teamId : option num)
| PostProjects (body : obj)
| GetProject (id : num)
| PutProject (id : num) (body : obj)
| DeleteProject (id : num)
| GetTasks (projectId assigneeId : option num)
| PostTasks (body : obj)
| GetTask (id : num)
| PutTask (id : num) (body : obj)
| PutTaskStatus (id : num) (body : obj)
| DeleteTask (id : num)
| GetTaskComments (taskId : num)
| PostTaskComments (taskId : num) (body : obj)
| DeleteComment (id : num)
| GetProjectFiles (projectId : num)
| GetTaskFiles (taskId : num)
| PostFiles (body : obj)
| DeleteFile (id : num)
| GetTeamMessages (teamId : num)
| PostTeamMessages (teamId : num) (body : obj)
| DeleteMessage (id : num).

(** What a request leaves behind: the response, the state of the store and
    [req.session.userId]. *)
Record Outcome (S : Type) := {
  response : Response;
  store : S;
  session : option Z
}.
Arguments response {S} _.
Arguments store {S} _.
Arguments session {S} _.

(** [const query = req.query.k ? parseInt(req.query.k) : undefined; if (query)] *)
Definition query_truthy (q : option num) : bool :=
  match q with
  | Some n => num_truthy n
  | None => false
  end.

Definition dateFields : list string :=
  ["startDate"; "dueDate"; "createdAt"; "updatedAt"].

(** A copy of the body whose date fields, when they hold a non-empty string,
    hold the [Date] made from it. *)
Definition convertDatesToObjects (body : obj) : obj :=
  map_imap (λ key v,
    Some (if bool_decide (key ∈ dateFields) && truthy (Some v) then
            match v with
            | JStr _ => JDate v
            | _ => v
            end
          else v)) body.

(** ** The route handlers *)

(** One definition per route, named after its method and path.  A handler
    takes [req.session.userId] and the state of the store and returns the
    response and the next state; an early [return res.status(...)] is a
    branch that ends with [reply].  The calls to [storage] are taken to
    return: the [catch] of a handler, which turns a rejected call into a 500,
    has no counterpart here.  [POST /api/auth/logout] is the case in which
    [req.session.destroy] reports no error.  A property of the body that is
    read as a name or an identifier and holds a value of another type names
    no row. *)

Section Routes.
Context {S : Type} `{!Storage S} `{!Schemas}.

Definition reply (code : Z) (j : json) (st : S) : Response * S :=
  ({| status := code; body := j |}, st).

(** [v === s] for a string literal [s]. *)
Definition is_str (v : option json) (s : string) : bool :=
  match v with
  | Some (JStr s') => bool_decide (s' = s)
  | _ => false
  end.

(** [a || b] on strings. *)
Definition or_str (a b : string) : string :=
  if bool_decide (a = "") then b else a.

(** A number put into an object. *)
Definition of_num (n : num) : json :=
  match n with
  | Int z => JNum z
  | NaN => JNull
  end.

(** The authentication middleware: [!req.session.userId] answers 401. *)
Definition requireAuth (sess : option Z) (next : Z → S → Response * S)
    (st : S) : Response * S :=
  match sess with
  | Some userId =>
      if bool_decide (userId ≠ 0) then next userId st
      else reply 401 (message "Unauthorized") st
  | None => reply 401 (message "Unauthorized") st
  end.

(** The validation middleware: the handler sees the parsed body. *)
Definition validateBody (schema : obj → ParseResult) (req_body : obj)
    (next : obj → S → Response * S) (st : S) : Response * S :=
  match schema (convertDatesToObjects req_body) with
  | ParseOk data => next data st
  | ZodError errors =>
      reply 400 (JObj {[ "message" := JStr "Validation error";
                         "errors" := errors ]}) st
  end.

(** [teamMembers.find(member => member.userId === req.session.userId)] *)
Definition find_member (userId : Z) (teamMembers : list TeamMember)
    : option TeamMember :=
  List.find (λ member, bool_decide (member_userId member = userId)) teamMembers.

(** [teamMembers.some(member => member.userId === req.session.userId)] *)
Definition some_member (userId : Z) (teamMembers : list TeamMember) : bool :=
  existsb (λ member, bool_decide (member_userId member = userId)) teamMembers.

(** [!membership || membership.role !== "admin"] *)
Definition not_team_admin (membership : option TeamMember) : bool :=
  match membership with
  | Some m => bool_decide (member_role m ≠ "admin")
  | None => true
  end.

(** [!currentUser || currentUser.role !== "admin"] *)
Definition not_global_admin (currentUser : option User) : bool :=
  match currentUser with
  | Some u => bool_decide (user_role u ≠ "admin")
  | None => true
  end.

(** *** Authentication *)

Definition post_api_auth_login (req_body : obj) (sess : option Z) (st : S)
    : Outcome S :=
  let username := req_body !! "username" in
  let password := req_body !! "password" in
  if is_str username "admin" && is_str password "pass123" then
    let '(st1, adminUser) :=
      match getUserByUsername st "admin" with
      | Some u => (st, u)
      | None =>
          createUser st {[ "username" := JStr "admin";
                           "password" := JStr "pass123";
                           "email" := JStr "admin@teamflow.com";
                           "fullName" := JStr "Administrator";
                           "role" := JStr "admin" ]}
      end in
    {| response := {| status := 200;
                      body := JObj (userWithoutPassword (user_obj adminUser)) |};
       store := st1;
       session := Some (user_id adminUser) |}
  else
    let user :=
      match username with
      | Some (JStr name) => getUserByUsername st name
      | _ => None
      end in
    match user with
    | Some user =>
        if negb (is_str password (user_password user)) then
          {| response := {| status := 401; body := message "Invalid credentials" |};
             store := st; session := sess |}
        else
          {| response := {| status := 200;
                            body := JObj (userWithoutPassword (user_obj user)) |};
             store := st;
             session := Some (user_id user) |}
    | None =>
        {| response := {| status := 401; body := message "Invalid credentials" |};
           store := st; session := sess |}
    end.

Definition post_api_auth_logout (st : S) : Outcome S :=
  {| response := {| status := 200; body := message "Logged out successfully" |};
     store := st;
     session := None |}.

Definition get_api_auth_me (userId : Z) (st : S) : Response * S :=
  match getUser st (Int userId) with
  | None => reply 404 (message "User not found") st
  | Some user => reply 200 (JObj (userWithoutPassword (user_obj user))) st
  end.

(** *** Users *)

Definition sanitizedUser (user : User) : json :=
  JObj {[ "id" := JNum (user_id user);
          "username" := JStr (user_username user);
          "email" := JStr (user_email user);
          "fullName" := JStr (match user_fullName user with
                              | Some n => or_str n (user_username user)
                              | None => user_username user
                              end);
          "avatar" := jopt JStr (user_avatar user);
          "role" := JStr (or_str (user_role user) "member");
          "userType" := JStr (or_str (user_userType user) "normal") ]}.

Definition get_api_users (userId : Z) (st : S) : Response * S :=
  reply 200 (JArr (sanitizedUser <$> getAllUsers st)) st.

(** A lookup by a name that is read from the body: a property that is
    missing or holds no string names no user. *)
Definition named (lookup : S → string → option User) (st : S)
    (v : option json) : option User :=
  match v with
  | Some (JStr name) => lookup st name
  | _ => None
  end.

Definition post_api_users (req_body : obj) (userId : Z) (st : S) : Response * S :=
  if not_global_admin (getUser st (Int userId)) then
    reply 403 (message "Only admins can create new users") st
  else
    match named getUserByUsername st (req_body !! "username") with
    | Some _ => reply 400 (message "Username already taken") st
    | None =>
        match named getUserByEmail st (req_body !! "email") with
        | Some _ => reply 400 (message "Email already in use") st
        | None =>
            let '(st1, user) := createUser st req_body in
            reply 201 (JObj (userWithoutPassword (user_obj user))) st1
        end
    end.

Definition get_api_users_id (id : num) (userId : Z) (st : S) : Response * S :=
  match getUser st id with
  | None => reply 404 (message "User not found") st
  | Some user => reply 200 (JObj (userWithoutPassword (user_obj user))) st
  end.

Definition put_api_users_id (id : num) (req_body : obj) (userId : Z) (st : S)
    : Response * S :=
  let currentUser := getUser st (Int userId) in
  if negb (num_seq (Int userId) id) && not_global_admin currentUser then
    reply 403 (message "Not authorized to update this user") st
  else if truthy (req_body !! "role") && not_global_admin currentUser then
    reply 403 (message "Not authorized to change role") st
  else
    match updateUser st id req_body with
    | (st1, None) => reply 404 (message "User not found") st1
    | (st1, Some updatedUser) =>
        reply 200 (JObj (userWithoutPassword (user_obj updatedUser))) st1
    end.

Definition delete_api_users_id (id : num) (userId : Z) (st : S) : Response * S :=
  if not_global_admin (getUser st (Int userId)) then
    reply 403 (message "Not authorized to delete users") st
  else if num_seq (Int userId) id then
    reply 400 (message "Cannot delete your own account") st
  else
    match deleteUser st id with
    | (st1, false) => reply 404 (message "User not found") st1
    | (st1, true) => reply 200 (message "User deleted successfully") st1
    end.

(** *** Teams *)

Definition get_api_teams (userId : Z) (st : S) : Response * S :=
  reply 200 (JArr (JObj ∘ team_obj <$> getTeamsByUser st (Int userId))) st.

Definition post_api_teams (req_body : obj) (userId : Z) (st : S) : Response * S :=
  match getUser st (Int userId) with
  | None => reply 404 (message "User not found") st
  | Some currentUser =>
      if bool_decide (user_role currentUser ≠ "admin") then
        reply 403 (message "Only admin users can create teams") st
      else
        let '(st1, team) := createTeam st (<[ "createdBy" := JNum userId ]> req_body) in
        let '(st2, _) :=
          addTeamMember st1 {[ "teamId" := JNum (team_id team);
                               "userId" := JNum userId;
                               "role" := JStr "admin" ]} in
        reply 201 (JObj (team_obj team)) st2
  end.

Definition get_api_teams_id (id : num) (userId : Z) (st : S) : Response * S :=
  match getTeam st id with
  | None => reply 404 (message "Team not found") st
  | Some team => reply 200 (JObj (team_obj team)) st
  end.

Definition put_api_teams_id (id : num) (req_body : obj) (userId : Z) (st : S)
    : Response * S :=
  match getTeam st id with
  | None => reply 404 (message "Team not found") st
  | Some team =>
      let teamMembers := getTeamMembers st (Int (team_id team)) in
      let currentUserMembership := find_member userId teamMembers in
      if not_team_admin currentUserMembership then
        reply 403 (message "Not authorized to update team") st
      else
        let '(st1, updatedTeam) := updateTeam st (Int (team_id team)) req_body in
        reply 200 (jopt (JObj ∘ team_obj) updatedTeam) st1
  end.

Definition delete_api_teams_id (id : num) (userId : Z) (st : S) : Response * S :=
  match getTeam st id with
  | None => reply 404 (message "Team not found") st
  | Some team =>
      let teamMembers := getTeamMembers st (Int (team_id team)) in
      let currentUserMembership := find_member userId teamMembers in
      if not_team_admin currentUserMembership then
        reply 403 (message "Not authorized to delete team") st
      else
        let '(st1, _) := deleteTeam st (Int (team_id team)) in
        reply 200 (message "Team deleted successfully") st1
  end.

(** *** Team members *)

Definition get_api_teams_id_members (teamId : num) (userId : Z) (st : S)
    : Response * S :=
  match getTeam st teamId with
  | None => reply 404 (message "Team not found") st
  | Some team =>
      let teamMembers := getTeamMembers st teamId in
      let isMember := some_member userId teamMembers in
      if negb isMember then
        reply 403 (message "Not authorized to view team members") st
      else
        reply 200 (JArr (JObj ∘ member_obj <$> teamMembers)) st
  end.

Definition get_api_teams_id_members_current (teamId : num) (userId : Z) (st : S)
    : Response * S :=
  match getTeam st teamId with
  | None => reply 404 (message "Team not found") st
  | Some team =>
      let teamMembers := getTeamMembers st teamId in
      match find_member userId teamMembers with
      | None => reply 404 (message "User is not a member of this team") st
      | Some currentMember => reply 200 (JObj (member_obj currentMember)) st
      end
  end.

Definition post_api_teams_id_members (teamId : num) (req_body : obj) (userId : Z)
    (st : S) : Response * S :=
  match getTeam st teamId with
  | None => reply 404 (message "Team not found") st
  | Some team =>
      let teamMembers := getTeamMembers st teamId in
      let currentUserMembership := find_member userId teamMembers in
      if not_team_admin currentUserMembership then
        reply 403 (message "Not authorized to add team members") st
      else
        let '(st1, newTeamMember) :=
          addTeamMember st (<[ "teamId" := of_num teamId ]> req_body) in
        reply 201 (JObj (member_obj newTeamMember)) st1
  end.

Definition delete_api_teams_teamId_members_userId (teamId userId' : num)
    (userId : Z) (st : S) : Response * S :=
  match getTeam st teamId with
  | None => reply 404 (message "Team not found") st
  | Some team =>
      let teamMembers := getTeamMembers st teamId in
      match find_member userId teamMembers with
      | None => reply 403 (message "Not authorized to remove team member") st
      | Some currentUserMembership =>
          if bool_decide (member_role currentUserMembership ≠ "admin")
             && negb (num_seq (Int userId) userId') then
            reply 403 (message "Not authorized to remove team member") st
          else
            match removeTeamMember st teamId userId' with
            | (st1, false) => reply 404 (message "Team member not found") st1
            | (st1, true) =>
                reply 200 (message "Team member removed successfully") st1
            end
      end
  end.

(** *** Projects *)

Definition get_api_projects (teamId : option num) (userId : Z) (st : S)
    : Response * S :=
  match teamId with
  | Some teamId' =>
      if num_truthy teamId' then
        match getTeam st teamId' with
        | None => reply 404 (message "Team not found") st
        | Some team =>
            let teamMembers := getTeamMembers st teamId' in
            let isMember := some_member userId teamMembers in
            if negb isMember then
              reply 403 (message "Not authorized to view projects") st
            else
              reply 200 (JArr (JObj ∘ project_obj <$> getProjectsByTeam st teamId')) st
        end
      else
        let teams := getTeamsByUser st (Int userId) in
        let projectsByTeam :=
          (λ team, getProjectsByTeam st (Int (team_id team))) <$> teams in
        reply 200 (JArr (JObj ∘ project_obj <$> concat projectsByTeam)) st
  | None =>
      let teams := getTeamsByUser st (Int userId) in
      let projectsByTeam :=
        (λ team, getProjectsByTeam st (Int (team_id team))) <$> teams in
      reply 200 (JArr (JObj ∘ project_obj <$> concat projectsByTeam)) st
  end.

(** [if (body.k && !(body.k instanceof Date)) body.k = new Date(body.k)] *)
Definition ensureDate (k : string) (req_body : obj) : obj :=
  match req_body !! k with
  | Some (JDate _) => req_body
  | Some v => if truthy (Some v) then <[ k := JDate v ]> req_body else req_body
  | None => req_body
  end.

Definition post_api_projects (req_body : obj) (userId : Z) (st : S) : Response * S :=
  let teamId := to_num (req_body !! "teamId") in
  match getTeam st teamId with
  | None => reply 404 (message "Team not found") st
  | Some team =>
      let teamMembers := getTeamMembers st teamId in
      match find_member userId teamMembers with
      | None => reply 403 (message "Not authorized to create project") st
      | Some userMembership =>
          let req_body1 := ensureDate "startDate" req_body in
          let req_body2 := ensureDate "dueDate" req_body1 in
          let '(st1, project) := createProject st req_body2 in
          reply 201 (JObj (project_obj project)) st1
      end
  end.

Definition get_api_projects_id (id : num) (userId : Z) (st : S) : Response * S :=
  match getProject st id with
  | None => reply 404 (message "Project not found") st
  | Some project =>
      let teamMembers := getTeamMembers st (Int (project_teamId project)) in
      let isMember := some_member userId teamMembers in
      if negb isMember then
        reply 403 (message "Not authorized to view project") st
      else
        reply 200 (JObj (project_obj project)) st
  end.

Definition put_api_projects_id (id : num) (req_body : obj) (userId : Z) (st : S)
    : Response * S :=
  match getProject st id with
  | None => reply 404 (message "Project not found") st
  | Some project =>
      let teamMembers := getTeamMembers st (Int (project_teamId project)) in
      let userMembership := find_member userId teamMembers in
      if not_team_admin userMembership then
        reply 403 (message "Not authorized to update project") st
      else
        let projectData := convertDatesToObjects req_body in
        let '(st1, updatedProject) :=
          updateProject st (Int (project_id project)) projectData in
        reply 200 (jopt (JObj ∘ project_obj) updatedProject) st1
  end.

Definition delete_api_projects_id (id : num) (userId : Z) (st : S) : Response * S :=
  match getProject st id with
  | None => reply 404 (message "Project not found") st
  | Some project =>
      let teamMembers := getTeamMembers st (Int (project_teamId project)) in
      let userMembership := find_member userId teamMembers in
      if not_team_admin userMembership then
        reply 403 (message "Not authorized to delete project") st
      else
        let '(st1, _) := deleteProject st (Int (project_id project)) in
        reply 200 (message "Project deleted successfully") st1
  end.

(** *** Tasks *)

Definition get_api_tasks (projectId assigneeId : option num) (userId : Z) (st : S)
    : Response * S :=
  if query_truthy projectId then
    let projectId' := default NaN projectId in
    match getProject st projectId' with
    | None => reply 404 (message "Project not found") st
    | Some project =>
        let teamMembers := getTeamMembers st (Int (project_teamId project)) in
        let isMember := some_member userId teamMembers in
        if negb isMember then
          reply 403 (message "Not authorized to view tasks") st
        else
          reply 200 (JArr (JObj ∘ task_obj <$> getTasksByProject st projectId')) st
    end
  else if query_truthy assigneeId then
    let assigneeId' := default NaN assigneeId in
    if negb (num_seq assigneeId' (Int userId)) then
      reply 403 (message "Not authorized to view other users' tasks") st
    else
      reply 200 (JArr (JObj ∘ task_obj <$> getTasksByAssignee st assigneeId')) st
  else
    reply 200 (JArr (JObj ∘ task_obj <$> getTasksByAssignee st (Int userId))) st.

Definition post_api_tasks (req_body : obj) (userId : Z) (st : S) : Response * S :=
  let projectId := to_num (req_body !! "projectId") in
  match getProject st projectId with
  | None => reply 404 (message "Project not found") st
  | Some project =>
      let teamMembers := getTeamMembers st (Int (project_teamId project)) in
      let isMember := some_member userId teamMembers in
      if negb isMember then
        reply 403 (message "Not authorized to create task") st
      else
        let taskData := convertDatesToObjects req_body in
        let '(st1, task) := createTask st taskData in
        reply 201 (JObj (task_obj task)) st1
  end.

Definition get_api_tasks_id (id : num) (userId : Z) (st : S) : Response * S :=
  match getTask st id with
  | None => reply 404 (message "Task not found") st
  | Some task =>
      match getProject st (Int (task_projectId task)) with
      | None => reply 404 (message "Project not found") st
      | Some project =>
          let teamMembers := getTeamMembers st (Int (project_teamId project)) in
          let isMember := some_member userId teamMembers in
          if negb isMember then
            reply 403 (message "Not authorized to view task") st
          else
            reply 200 (JObj (task_obj task)) st
      end
  end.

Definition put_api_tasks_id (id : num) (req_body : obj) (userId : Z) (st : S)
    : Response * S :=
  match getTask st id with
  | None => reply 404 (message "Task not found") st
  | Some task =>
      match getProject st (Int (task_projectId task)) with
      | None => reply 404 (message "Project not found") st
      | Some project =>
          let teamMembers := getTeamMembers st (Int (project_teamId project)) in
          let isMember := some_member userId teamMembers in
          if negb isMember then
            reply 403 (message "Not authorized to update task") st
          else
            let taskData := convertDatesToObjects req_body in
            let '(st1, updatedTask) := updateTask st (Int (task_id task)) taskData in
            reply 200 (jopt (JObj ∘ task_obj) updatedTask) st1
      end
  end.

Definition put_api_tasks_id_status (id : num) (req_body : obj) (userId : Z)
    (st : S) : Response * S :=
  let status := req_body !! "status" in
  let order := req_body !! "order" in
  match getTask st id with
  | None => reply 404 (message "Task not found") st
  | Some task =>
      match getProject st (Int (task_projectId task)) with
      | None => reply 404 (message "Project not found") st
      | Some project =>
          let teamMembers := getTeamMembers st (Int (project_teamId project)) in
          let isMember := some_member userId teamMembers in
          if negb isMember then
            reply 403 (message "Not authorized to update task status") st
          else
            let '(st1, updatedTask) :=
              updateTaskStatus st (Int (task_id task)) status order in
            reply 200 (jopt (JObj ∘ task_obj) updatedTask) st1
      end
  end.

Definition delete_api_tasks_id (id : num) (userId : Z) (st : S) : Response * S :=
  match getTask st id with
  | None => reply 404 (message "Task not found") st
  | Some task =>
      match getProject st (Int (task_projectId task)) with
      | None => reply 404 (message "Project not found") st
      | Some project =>
          let teamMembers := getTeamMembers st (Int (project_teamId project)) in
          let isMember := some_member userId teamMembers in
          if negb isMember then
            reply 403 (message "Not authorized to delete task") st
          else
            let '(st1, _) := deleteTask st (Int (task_id task)) in
            reply 200 (message "Task deleted successfully") st1
      end
  end.

(** *** Comments *)

Definition get_api_tasks_taskId_comments (taskId : num) (userId : Z) (st : S)
    : Response * S :=
  match getTask st taskId with
  | None => reply 404 (message "Task not found") st
  | Some task =>
      match getProject st (Int (task_projectId task)) with
      | None => reply 404 (message "Project not found") st
      | Some project =>
          let teamMembers := getTeamMembers st (Int (project_teamId project)) in
          let isMember := some_member userId teamMembers in
          if negb isMember then
            reply 403 (message "Not authorized to view comments") st
          else
            let comments := getCommentsByTask st taskId in
            reply 200 (JArr (JObj ∘ comment_with_user_obj <$> comments)) st
      end
  end.

Definition post_api_tasks_taskId_comments (taskId : num) (req_body : obj)
    (userId : Z) (st : S) : Response * S :=
  match getTask st taskId with
  | None => reply 404 (message "Task not found") st
  | Some task =>
      match getProject st (Int (task_projectId task)) with
      | None => reply 404 (message "Project not found") st
      | Some project =>
          let teamMembers := getTeamMembers st (Int (project_teamId project)) in
          let isMember := some_member userId teamMembers in
          if negb isMember then
            reply 403 (message "Not authorized to add comment") st
          else
            let '(st1, comment) :=
              createComment st (<[ "userId" := JNum userId ]>
                                 (<[ "taskId" := of_num taskId ]> req_body)) in
            match getUser st1 (Int userId) with
            | None => reply 500 (message "Failed to get user") st1
            | Some user =>
                reply 201 (JObj (<[ "user" := JObj (userWithoutPassword (user_obj user)) ]>
                                   (comment_obj comment))) st1
            end
      end
  end.

Definition delete_api_comments_id (commentId : num) (userId : Z) (st : S)
    : Response * S :=
  match getComment st commentId with
  | None => reply 404 (message "Comment not found") st
  | Some comment =>
      let remove :=
        let '(st1, _) := deleteComment st commentId in
        reply 200 (message "Comment deleted successfully") st1 in
      if bool_decide (comment_userId comment ≠ userId) then
        match getTask st (Int (comment_taskId comment)) with
        | None => reply 404 (message "Task not found") st
        | Some task =>
            match getProject st (Int (task_projectId task)) with
            | None => reply 404 (message "Project not found") st
            | Some project =>
                let teamMembers := getTeamMembers st (Int (project_teamId project)) in
                let userMembership := find_member userId teamMembers in
                if not_team_admin userMembership then
                  reply 403 (message "Not authorized to delete comment") st
                else remove
            end
        end
      else remove
  end.

(** *** Files *)

Definition get_api_projects_projectId_files (projectId : num) (userId : Z)
    (st : S) : Response * S :=
  match getProject st projectId with
  | None => reply 404 (message "Project not found") st
  | Some project =>
      let teamMembers := getTeamMembers st (Int (project_teamId project)) in
      let isMember := some_member userId teamMembers in
      if negb isMember then
        reply 403 (message "Not authorized to view files") st
      else
        reply 200 (JArr (JObj ∘ file_obj <$> getFilesByProject st projectId)) st
  end.

Definition get_api_tasks_taskId_files (taskId : num) (userId : Z) (st : S)
    : Response * S :=
  match getTask st taskId with
  | None => reply 404 (message "Task not found") st
  | Some task =>
      match getProject st (Int (task_projectId task)) with
      | None => reply 404 (message "Project not found") st
      | Some project =>
          let teamMembers := getTeamMembers st (Int (project_teamId project)) in
          let isMember := some_member userId teamMembers in
          if negb isMember then
            reply 403 (message "Not authorized to view files") st
          else
            reply 200 (JArr (JObj ∘ file_obj <$> getFilesByTask st taskId)) st
      end
  end.

Definition post_api_files (req_body : obj) (userId : Z) (st : S) : Response * S :=
  let projectId := to_num (req_body !! "projectId") in
  match getProject st projectId with
  | None => reply 404 (message "Project not found") st
  | Some project =>
      let teamMembers := getTeamMembers st (Int (project_teamId project)) in
      let isMember := some_member userId teamMembers in
      if negb isMember then
        reply 403 (message "Not authorized to upload file") st
      else
        let fileData := <[ "uploadedBy" := JNum userId ]> req_body in
        match insertFileSchema fileData with
        | ZodError errors =>
            reply 400 (JObj {[ "message" := JStr "Validation error";
                               "errors" := errors ]}) st
        | ParseOk _ =>
            let '(st1, file) := createFile st fileData in
            reply 201 (JObj (file_obj file)) st1
        end
  end.

Definition delete_api_files_id (fileId : num) (userId : Z) (st : S) : Response * S :=
  match getFile st fileId with
  | None => reply 404 (message "File not found") st
  | Some file =>
      match getProject st (Int (file_projectId file)) with
      | None => reply 404 (message "Project not found") st
      | Some project =>
          let teamMembers := getTeamMembers st (Int (project_teamId project)) in
          match find_member userId teamMembers with
          | None => reply 403 (message "Not authorized to delete file") st
          | Some userMembership =>
              if bool_decide (file_uploadedBy file ≠ userId)
                 && bool_decide (member_role userMembership ≠ "admin") then
                reply 403 (message "Not authorized to delete file") st
              else
                let '(st1, _) := deleteFile st fileId in
                reply 200 (message "File deleted successfully") st1
          end
      end
  end.

(** *** Messages *)

Definition get_api_teams_teamId_messages (teamId : num) (userId : Z) (st : S)
    : Response * S :=
  match getTeam st teamId with
  | None => reply 404 (message "Team not found") st
  | Some team =>
      let teamMembers := getTeamMembers st teamId in
      let isMember := some_member userId teamMembers in
      if negb isMember then
        reply 403 (message "Not authorized to view messages") st
      else
        let messages := getMessagesByTeam st teamId in
        let messagesWithoutPassword :=
          (λ msg, JObj (<[ "user" := JObj (userWithoutPassword (user_obj (mu_user msg))) ]>
                          (message_with_user_obj msg))) <$> messages in
        reply 200 (JArr messagesWithoutPassword) st
  end.

Definition post_api_teams_teamId_messages (teamId : num) (req_body : obj)
    (userId : Z) (st : S) : Response * S :=
  match getTeam st teamId with
  | None => reply 404 (message "Team not found") st
  | Some team =>
      let teamMembers := getTeamMembers st teamId in
      let isMember := some_member userId teamMembers in
      if negb isMember then
        reply 403 (message "Not authorized to send message") st
      else
        let '(st1, msg) :=
          createMessage st (<[ "userId" := JNum userId ]>
                             (<[ "teamId" := of_num teamId ]> req_body)) in
        match getUser st1 (Int userId) with
        | None => reply 500 (message "Failed to get user") st1
        | Some user =>
            reply 201 (JObj (<[ "user" := JObj (userWithoutPassword (user_obj user)) ]>
                               (message_obj msg))) st1
        end
  end.

Definition delete_api_messages_id (messageId : num) (userId : Z) (st : S)
    : Response * S :=
  match getMessage st messageId with
  | None => reply 404 (message "Message not found") st
  | Some msg =>
      let remove :=
        let '(st1, _) := deleteMessage st messageId in
        reply 200 (message "Message deleted successfully") st1 in
      if bool_decide (message_userId msg ≠ userId) then
        let teamMembers := getTeamMembers st (Int (message_teamId msg)) in
        let userMembership := find_member userId teamMembers in
        if not_team_admin userMembership then
          reply 403 (message "Not authorized to delete message") st
        else remove
      else remove
  end.

(** *** The router *)

(** A handler behind [requireAuth] leaves the session as it is. *)
Definition authed (sess : option Z) (next : Z → S → Response * S) (st : S)
    : Outcome S :=
  let '(res, st1) := requireAuth sess next st in
  {| response := res; store := st1; session := sess |}.

(** The routes as [registerRoutes] registers them, with their middleware. *)
Definition handle (req : Request) (sess : option Z) (st : S) : Outcome S :=
  match req with
  | PostAuthLogin b => post_api_auth_login b sess st
  | PostAuthLogout => post_api_auth_logout st
  | GetAuthMe => authed sess get_api_auth_me st
  | GetUsers => authed sess get_api_users st
  | PostUsers b => authed sess (λ u, validateBody insertUserSchema b (λ b', post_api_users b' u)) st
  | GetUser id => authed sess (get_api_users_id id) st
  | PutUser id b => authed sess (put_api_users_id id b) st
  | DeleteUser id => authed sess (delete_api_users_id id) st
  | GetTeams => authed sess get_api_teams st
  | PostTeams b => authed sess (λ u, validateBody insertTeamSchema b (λ b', post_api_teams b' u)) st
  | GetTeam id => authed sess (get_api_teams_id id) st
  | PutTeam id b => authed sess (put_api_teams_id id b) st
  | DeleteTeam id => authed sess (delete_api_teams_id id) st
  | GetTeamMembers id => authed sess (get_api_teams_id_members id) st
  | GetTeamMembersCurrent id => authed sess (get_api_teams_id_members_current id) st
  | PostTeamMembers id b =>
      authed sess (λ u, validateBody insertTeamMemberSchema b
                          (λ b', post_api_teams_id_members id b' u)) st
  | DeleteTeamMember teamId userId =>
      authed sess (delete_api_teams_teamId_members_userId teamId userId) st
  | GetProjects teamId => authed sess (get_api_projects teamId) st
  | PostProjects b =>
      authed sess (λ u, validateBody insertProjectSchema b (λ b', post_api_projects b' u)) st
  | GetProject id => authed sess (get_api_projects_id id) st
  | PutProject id b => authed sess (put_api_projects_id id b) st
  | DeleteProject id => authed sess (delete_api_projects_id id) st
  | GetTasks projectId assigneeId => authed sess (get_api_tasks projectId assigneeId) st
  | PostTasks b => authed sess (λ u, validateBody insertTaskSchema b (λ b', post_api_tasks b' u)) st
  | GetTask id => authed sess (get_api_tasks_id id) st
  | PutTask id b => authed sess (put_api_tasks_id id b) st
  | PutTaskStatus id b => authed sess (put_api_tasks_id_status id b) st
  | DeleteTask id => authed sess (delete_api_tasks_id id) st
  | GetTaskComments taskId => authed sess (get_api_tasks_taskId_comments taskId) st
  | PostTaskComments taskId b =>
      authed sess (λ u, validateBody insertCommentSchema b
                          (λ b', post_api_tasks_taskId_comments taskId b' u)) st
  | DeleteComment id => authed sess (delete_api_comments_id id) st
  | GetProjectFiles projectId => authed sess (get_api_projects_projectId_files projectId) st
  | GetTaskFiles taskId => authed sess (get_api_tasks_taskId_files taskId) st
  | PostFiles b => authed sess (post_api_files b) st
  | DeleteFile id => authed sess (delete_api_files_id id) st
  | GetTeamMessages teamId => authed sess (get_api_teams_teamId_messages teamId) st
  | PostTeamMessages teamId b =>
      authed sess (λ u, validateBody insertMessageSchema_omit b
                          (λ b', post_api_teams_teamId_messages teamId b' u)) st
  | DeleteMessage id => authed sess (delete_api_messages_id id) st
  end.

End Routes.

(** ** An in-memory persistence layer *)

(** Modelled from the spec: the persistence engine behind [./storage], "a
    key-value/relational store accessed through a narrow CRUD interface",
    with accessors "keyed by numeric id or by foreign key".  Tables are lists
    in insertion order, a new row takes the identifier after the largest one
    of its table, a lookup of an identifier that no row carries ([NaN]
    included) finds nothing, and a deletion removes the row it names and
    nothing else. *)
Module MemStorage.

Record MemStore := {
  users : list User;
  teams : list Team;
  teamMembers : list TeamMember;
  projects : list Project;
  tasks : list Task;
  comments : list Comment;
  files : list File;
  messages : list Message
}.

Definition empty : MemStore :=
  {| users := []; teams := []; teamMembers := []; projects := []; tasks := [];
     comments := []; files := []; messages := [] |}.

Definition with_users (f : list User → list User) (st : MemStore) : MemStore :=
  {| users := f (users st); teams := teams st; teamMembers := teamMembers st;
     projects := projects st; tasks := tasks st; comments := comments st;
     files := files st; messages := messages st |}.

Definition with_teams (f : list Team → list Team) (st : MemStore) : MemStore :=
  {| users := users st; teams := f (teams st); teamMembers := teamMembers st;
     projects := projects st; tasks := tasks st; comments := comments st;
     files := files st; messages := messages st |}.

Definition with_teamMembers (f : list TeamMember → list TeamMember)
    (st : MemStore) : MemStore :=
  {| users := users st; teams := teams st; teamMembers := f (teamMembers st);
     projects := projects st; tasks := tasks st; comments := comments st;
     files := files st; messages := messages st |}.

Definition with_projects (f : list Project → list Project) (st : MemStore)
    : MemStore :=
  {| users := users st; teams := teams st; teamMembers := teamMembers st;
     projects := f (projects st); tasks := tasks st; comments := comments st;
     files := files st; messages := messages st |}.

Definition with_tasks (f : list Task → list Task) (st : MemStore) : MemStore :=
  {| users := users st; teams := teams st; teamMembers := teamMembers st;
     projects := projects st; tasks := f (tasks st); comments := comments st;
     files := files st; messages := messages st |}.

Definition with_comments (f : list Comment → list Comment) (st : MemStore)
    : MemStore :=
  {| users := users st; teams := teams st; teamMembers := teamMembers st;
     projects := projects st; tasks := tasks st; comments := f (comments st);
     files := files st; messages := messages st |}.

Definition with_files (f : list File → list File) (st : MemStore) : MemStore :=
  {| users := users st; teams := teams st; teamMembers := teamMembers st;
     projects := projects st; tasks := tasks st; comments := comments st;
     files := f (files st); messages := messages st |}.

Definition with_messages (f : list Message → list Message) (st : MemStore)
    : MemStore :=
  {| users := users st; teams := teams st; teamMembers := teamMembers st;
     projects := projects st; tasks := tasks st; comments := comments st;
     files := files st; messages := f (messages st) |}.

(** The identifier of the next row of a table. *)
Definition next_id {A} (key : A → Z) (rows : list A) : Z :=
  1 + foldr (λ row acc, Z.max (key row) acc) 0 rows.

(** The row keyed by [id]. *)
Definition has_id {A} (key : A → Z) (id : num) (row : A) : bool :=
  num_seq (Int (key row)) id.

Definition lookup_row {A} (key : A → Z) (id : num) (rows : list A) : option A :=
  List.find (has_id key id) rows.

Definition drop_row {A} (key : A → Z) (id : num) (rows : list A) : list A :=
  List.filter (λ row, negb (has_id key id row)) rows.

Definition put_row {A} (key : A → Z) (row : A) (rows : list A) : list A :=
  (λ r, if bool_decide (key r = key row) then row else r) <$> rows.

(** Reading the columns of a row to insert or of a patch. *)
Definition col_str (o : obj) (k : string) (old : string) : string :=
  match o !! k with
  | Some (JStr s) => s
  | _ => old
  end.

Definition col_int (o : obj) (k : string) (old : Z) : Z :=
  match o !! k with
  | Some (JNum z) => z
  | _ => old
  end.

Definition col_opt_str (o : obj) (k : string) (old : option string) : option string :=
  match o !! k with
  | Some (JStr s) => Some s
  | Some (JDate (JStr s)) => Some s
  | Some JNull => None
  | _ => old
  end.

Definition col_opt_int (o : obj) (k : string) (old : option Z) : option Z :=
  match o !! k with
  | Some (JNum z) => Some z
  | Some JNull => None
  | _ => old
  end.

Definition patch_user (o : obj) (u : User) : User :=
  {| user_id := user_id u;
     user_username := col_str o "username" (user_username u);
     user_email := col_str o "email" (user_email u);
     user_password := col_str o "password" (user_password u);
     user_fullName := col_opt_str o "fullName" (user_fullName u);
     user_avatar := col_opt_str o "avatar" (user_avatar u);
     user_role := col_str o "role" (user_role u);
     user_userType := col_str o "userType" (user_userType u) |}.

Definition patch_team (o : obj) (t : Team) : Team :=
  {| team_id := team_id t;
     team_name := col_str o "name" (team_name t);
     team_description := col_opt_str o "description" (team_description t);
     team_createdBy := col_int o "createdBy" (team_createdBy t) |}.

Definition patch_project (o : obj) (p : Project) : Project :=
  {| project_id := project_id p;
     project_teamId := col_int o "teamId" (project_teamId p);
     project_name := col_str o "name" (project_name p);
     project_startDate := col_opt_str o "startDate" (project_startDate p);
     project_dueDate := col_opt_str o "dueDate" (project_dueDate p) |}.

Definition patch_task (o : obj) (t : Task) : Task :=
  {| task_id := task_id t;
     task_projectId := col_int o "projectId" (task_projectId t);
     task_title := col_str o "title" (task_title t);
     task_status := col_str o "status" (task_status t);
     task_order := col_int o "order" (task_order t);
     task_assigneeId := col_opt_int o "assigneeId" (task_assigneeId t);
     task_dueDate := col_opt_str o "dueDate" (task_dueDate t) |}.

(** *** Users *)

Definition mem_getUser (st : MemStore) (id : num) : option User :=
  lookup_row user_id id (users st).

Definition mem_getUserByUsername (st : MemStore) (name : string) : option User :=
  List.find (λ u, bool_decide (user_username u = name)) (users st).

Definition mem_getUserByEmail (st : MemStore) (email : string) : option User :=
  List.find (λ u, bool_decide (user_email u = email)) (users st).

Definition mem_createUser (st : MemStore) (o : obj) : MemStore * User :=
  let user :=
    {| user_id := next_id user_id (users st);
       user_username := col_str o "username" "";
       user_email := col_str o "email" "";
       user_password := col_str o "password" "";
       user_fullName := col_opt_str o "fullName" None;
       user_avatar := col_opt_str o "avatar" None;
       user_role := col_str o "role" "member";
       user_userType := col_str o "userType" "normal" |} in
  (with_users (λ l, l ++ [user]) st, user).

Definition mem_updateUser (st : MemStore) (id : num) (o : obj)
    : MemStore * option User :=
  match mem_getUser st id with
  | None => (st, None)
  | Some u =>
      let u' := patch_user o u in
      (with_users (put_row user_id u') st, Some u')
  end.

Definition mem_deleteUser (st : MemStore) (id : num) : MemStore * bool :=
  match mem_getUser st id with
  | None => (st, false)
  | Some _ => (with_users (drop_row user_id id) st, true)
  end.

(** *** Teams and memberships *)

Definition mem_getTeam (st : MemStore) (id : num) : option Team :=
  lookup_row team_id id (teams st).

Definition mem_getTeamMembers (st : MemStore) (teamId : num) : list TeamMember :=
  List.filter (has_id member_teamId teamId) (teamMembers st).

Definition mem_getTeamsByUser (st : MemStore) (userId : num) : list Team :=
  List.filter
    (λ t, existsb (has_id member_userId userId) (mem_getTeamMembers st (Int (team_id t))))
    (teams st).

Definition mem_createTeam (st : MemStore) (o : obj) : MemStore * Team :=
  let team :=
    {| team_id := next_id team_id (teams st);
       team_name := col_str o "name" "";
       team_description := col_opt_str o "description" None;
       team_createdBy := col_int o "createdBy" 0 |} in
  (with_teams (λ l, l ++ [team]) st, team).

Definition mem_updateTeam (st : MemStore) (id : num) (o : obj)
    : MemStore * option Team :=
  match mem_getTeam st id with
  | None => (st, None)
  | Some t =>
      let t' := patch_team o t in
      (with_teams (put_row team_id t') st, Some t')
  end.

Definition mem_deleteTeam (st : MemStore) (id : num) : MemStore * bool :=
  match mem_getTeam st id with
  | None => (st, false)
  | Some _ => (with_teams (drop_row team_id id) st, true)
  end.

Definition mem_addTeamMember (st : MemStore) (o : obj) : MemStore * TeamMember :=
  let member :=
    {| member_teamId := col_int o "teamId" 0;
       member_userId := col_int o "userId" 0;
       member_role := col_str o "role" "member" |} in
  (with_teamMembers (λ l, l ++ [member]) st, member).

Definition is_membership (teamId userId : num) (m : TeamMember) : bool :=
  has_id member_teamId teamId m && has_id member_userId userId m.

Definition mem_removeTeamMember (st : MemStore) (teamId userId : num)
    : MemStore * bool :=
  if existsb (is_membership teamId userId) (teamMembers st) then
    (with_teamMembers (List.filter (λ m, negb (is_membership teamId userId m))) st, true)
  else (st, false).

(** *** Projects *)

Definition mem_getProject (st : MemStore) (id : num) : option Project :=
  lookup_row project_id id (projects st).

Definition mem_getProjectsByTeam (st : MemStore) (teamId : num) : list Project :=
  List.filter (has_id project_teamId teamId) (projects st).

Definition mem_createProject (st : MemStore) (o : obj) : MemStore * Project :=
  let project :=
    {| project_id := next_id project_id (projects st);
       project_teamId := col_int o "teamId" 0;
       project_name := col_str o "name" "";
       project_startDate := col_opt_str o "startDate" None;
       project_dueDate := col_opt_str o "dueDate" None |} in
  (with_projects (λ l, l ++ [project]) st, project).

Definition mem_updateProject (st : MemStore) (id : num) (o : obj)
    : MemStore * option Project :=
  match mem_getProject st id with
  | None => (st, None)
  | Some p =>
      let p' := patch_project o p in
      (with_projects (put_row project_id p') st, Some p')
  end.

Definition mem_deleteProject (st : MemStore) (id : num) : MemStore * bool :=
  match mem_getProject st id with
  | None => (st, false)
  | Some _ => (with_projects (drop_row project_id id) st, true)
  end.

(** *** Tasks *)

Definition mem_getTask (st : MemStore) (id : num) : option Task :=
  lookup_row task_id id (tasks st).

Definition mem_getTasksByProject (st : MemStore) (projectId : num) : list Task :=
  List.filter (has_id task_projectId projectId) (tasks st).

Definition mem_getTasksByAssignee (st : MemStore) (assigneeId : num) : list Task :=
  List.filter
    (λ t, match task_assigneeId t with
          | Some a => num_seq (Int a) assigneeId
          | None => false
          end)
    (tasks st).

Definition mem_createTask (st : MemStore) (o : obj) : MemStore * Task :=
  let task :=
    {| task_id := next_id task_id (tasks st);
       task_projectId := col_int o "projectId" 0;
       task_title := col_str o "title" "";
       task_status := col_str o "status" "todo";
       task_order := col_int o "order" 0;
       task_assigneeId := col_opt_int o "assigneeId" None;
       task_dueDate := col_opt_str o "dueDate" None |} in
  (with_tasks (λ l, l ++ [task]) st, task).

Definition mem_updateTask (st : MemStore) (id : num) (o : obj)
    : MemStore * option Task :=
  match mem_getTask st id with
  | None => (st, None)
  | Some t =>
      let t' := patch_task o t in
      (with_tasks (put_row task_id t') st, Some t')
  end.

Definition mem_updateTaskStatus (st : MemStore) (id : num)
    (status order : option json) : MemStore * option Task :=
  let patch : obj :=
    match status, order with
    | Some s, Some o => {[ "status" := s; "order" := o ]}
    | Some s, None => {[ "status" := s ]}
    | None, Some o => {[ "order" := o ]}
    | None, None => ∅
    end in
  mem_updateTask st id patch.

Definition mem_deleteTask (st : MemStore) (id : num) : MemStore * bool :=
  match mem_getTask st id with
  | None => (st, false)
  | Some _ => (with_tasks (drop_row task_id id) st, true)
  end.

(** *** Comments *)

Definition mem_getComment (st : MemStore) (id : num) : option Comment :=
  lookup_row comment_id id (comments st).

(** The comments of a task, each joined with the row of its author. *)
Definition mem_getCommentsByTask (st : MemStore) (taskId : num)
    : list CommentWithUser :=
  omap (λ c, (λ u, {| cu_comment := c; cu_user := u |})
               <$> mem_getUser st (Int (comment_userId c)))
       (List.filter (has_id comment_taskId taskId) (comments st)).

Definition mem_createComment (st : MemStore) (o : obj) : MemStore * Comment :=
  let comment :=
    {| comment_id := next_id comment_id (comments st);
       comment_taskId := col_int o "taskId" 0;
       comment_userId := col_int o "userId" 0;
       comment_content := col_str o "content" "" |} in
  (with_comments (λ l, l ++ [comment]) st, comment).

Definition mem_deleteComment (st : MemStore) (id : num) : MemStore * bool :=
  match mem_getComment st id with
  | None => (st, false)
  | Some _ => (with_comments (drop_row comment_id id) st, true)
  end.

(** *** Files *)

Definition mem_getFile (st : MemStore) (id : num) : option File :=
  lookup_row file_id id (files st).

Definition mem_getFilesByProject (st : MemStore) (projectId : num) : list File :=
  List.filter (has_id file_projectId projectId) (files st).

Definition mem_getFilesByTask (st : MemStore) (taskId : num) : list File :=
  List.filter
    (λ f, match file_taskId f with
          | Some t => num_seq (Int t) taskId
          | None => false
          end)
    (files st).

Definition mem_createFile (st : MemStore) (o : obj) : MemStore * File :=
  let file :=
    {| file_id := next_id file_id (files st);
       file_projectId := col_int o "projectId" 0;
       file_taskId := col_opt_int o "taskId" None;
       file_uploadedBy := col_int o "uploadedBy" 0;
       file_name := col_str o "name" "" |} in
  (with_files (λ l, l ++ [file]) st, file).

Definition mem_deleteFile (st : MemStore) (id : num) : MemStore * bool :=
  match mem_getFile st id with
  | None => (st, false)
  | Some _ => (with_files (drop_row file_id id) st, true)
  end.

(** *** Messages *)

Definition mem_getMessage (st : MemStore) (id : num) : option Message :=
  lookup_row message_id id (messages st).

(** The messages of a team, each joined with the row of its author. *)
Definition mem_getMessagesByTeam (st : MemStore) (teamId : num)
    : list MessageWithUser :=
  omap (λ m, (λ u, {| mu_message := m; mu_user := u |})
               <$> mem_getUser st (Int (message_userId m)))
       (List.filter (has_id message_teamId teamId) (messages st)).

Definition mem_createMessage (st : MemStore) (o : obj) : MemStore * Message :=
  let msg :=
    {| message_id := next_id message_id (messages st);
       message_teamId := col_int o "teamId" 0;
       message_userId := col_int o "userId" 0;
       message_content := col_str o "content" "" |} in
  (with_messages (λ l, l ++ [msg]) st, msg).

Definition mem_deleteMessage (st : MemStore) (id : num) : MemStore * bool :=
  match mem_getMessage st id with
  | None => (st, false)
  | Some _ => (with_messages (drop_row message_id id) st, true)
  end.

#[export] Instance storage : Storage MemStore := {
  getUser := mem_getUser;
  getUserByUsername := mem_getUserByUsername;
  getUserByEmail := mem_getUserByEmail;
  getAllUsers := users;
  createUser := mem_createUser;
  updateUser := mem_updateUser;
  deleteUser := mem_deleteUser;
  getTeam := mem_getTeam;
  getTeamsByUser := mem_getTeamsByUser;
  createTeam := mem_createTeam;
  updateTeam := mem_updateTeam;
  deleteTeam := mem_deleteTeam;
  getTeamMembers := mem_getTeamMembers;
  addTeamMember := mem_addTeamMember;
  removeTeamMember := mem_removeTeamMember;
  getProject := mem_getProject;
  getProjectsByTeam := mem_getProjectsByTeam;
  createProject := mem_createProject;
  updateProject := mem_updateProject;
  deleteProject := mem_deleteProject;
  getTask := mem_getTask;
  getTasksByProject := mem_getTasksByProject;
  getTasksByAssignee := mem_getTasksByAssignee;
  createTask := mem_createTask;
  updateTask := mem_updateTask;
  updateTaskStatus := mem_updateTaskStatus;
  deleteTask := mem_deleteTask;
  getComment := mem_getComment;
  getCommentsByTask := mem_getCommentsByTask;
  createComment := mem_createComment;
  deleteComment := mem_deleteComment;
  getFile := mem_getFile;
  getFilesByProject := mem_getFilesByProject;
  getFilesByTask := mem_getFilesByTask;
  createFile := mem_createFile;
  deleteFile := mem_deleteFile;
  getMessage := mem_getMessage;
  getMessagesByTeam := mem_getMessagesByTeam;
  createMessage := mem_createMessage;
  deleteMessage := mem_deleteMessage
}.

(** Schemas that let every body through unchanged. *)
#[export] Instance schemas : Schemas := {
  insertUserSchema := ParseOk;
  insertTeamSchema := ParseOk;
  insertTeamMemberSchema := ParseOk;
  insertProjectSchema := ParseOk;
  insertTaskSchema := ParseOk;
  insertCommentSchema := ParseOk;
  insertFileSchema := ParseOk;
  insertMessageSchema_omit := ParseOk
}.

End MemStorage.

(** ** The vocabulary of the access-control policy *)

Section Policy.
Context {S : Type} `{!Storage S} `{!Schemas}.

Definition status_of (o : Outcome S) : Z := status (response o).

(** The team-scoped role of a user: the role of the membership that [find]
    returns, the first one of the user in the member list of the team. *)
Definition team_role (st : S) (teamId : num) (userId : Z) : option string :=
  member_role <$> find_member userId (getTeamMembers st teamId).

Definition team_of_project (st : S) (projectId : num) : option num :=
  (λ p, Int (project_teamId p)) <$> getProject st projectId.

Definition team_of_task (st : S) (taskId : num) : option num :=
  getTask st taskId ≫= λ t, team_of_project st (Int (task_projectId t)).

(** The team that owns the resource a request writes to: the team whose
    member list the handler reads. *)
Definition owning_team (st : S) (req : Request) : option num :=
  match req with
  | PutTeam id _ | DeleteTeam id => (λ t, Int (team_id t)) <$> getTeam st id
  | PostTeamMembers id _ | DeleteTeamMember id _ => (λ _, id) <$> getTeam st id
  | PutProject id _ | DeleteProject id => team_of_project st id
  | PutTask id _ | DeleteTask id => team_of_task st id
  | DeleteComment id =>
      getComment st id ≫= λ c, team_of_task st (Int (comment_taskId c))
  | DeleteFile id =>
      getFile st id ≫= λ f, team_of_project st (Int (file_projectId f))
  | DeleteMessage id => (λ m, Int (message_teamId m)) <$> getMessage st id
  | _ => None
  end.

(** The author of a comment or a message, the uploader of a file. *)
Definition author_of (st : S) (req : Request) : option Z :=
  match req with
  | DeleteComment id => comment_userId <$> getComment st id
  | DeleteFile id => file_uploadedBy <$> getFile st id
  | DeleteMessage id => message_userId <$> getMessage st id
  | _ => None
  end.

(** The operations that are for team admins only, as the specification lists
    them for an actor [userId]: removing a member counts when it is another
    user. *)
Definition admin_only_listed (userId : Z) (req : Request) : bool :=
  match req with
  | PutTeam _ _ | DeleteTeam _ | PostTeamMembers _ _
  | PutProject _ _ | DeleteProject _ | PutTask _ _ | DeleteTask _ => true
  | DeleteTeamMember _ u => negb (num_seq (Int userId) u)
  | _ => false
  end.

(** The operations whose handler asks for the role ["admin"]. *)
Definition admin_only (userId : Z) (req : Request) : bool :=
  match req with
  | PutTeam _ _ | DeleteTeam _ | PostTeamMembers _ _
  | PutProject _ _ | DeleteProject _ => true
  | DeleteTeamMember _ u => negb (num_seq (Int userId) u)
  | _ => false
  end.

(** The writes to a task, open to every member of the owning team. *)
Definition task_write (req : Request) : bool :=
  match req with
  | PutTask _ _ | DeleteTask _ => true
  | _ => false
  end.

(** The verdict of [validateBody] on the routes that run it. *)
Definition validation (req : Request) : option ParseResult :=
  match req with
  | PostUsers b => Some (insertUserSchema (convertDatesToObjects b))
  | PostTeams b => Some (insertTeamSchema (convertDatesToObjects b))
  | PostTeamMembers _ b => Some (insertTeamMemberSchema (convertDatesToObjects b))
  | PostProjects b => Some (insertProjectSchema (convertDatesToObjects b))
  | PostTasks b => Some (insertTaskSchema (convertDatesToObjects b))
  | PostTaskComments _ b => Some (insertCommentSchema (convertDatesToObjects b))
  | PostTeamMessages _ b => Some (insertMessageSchema_omit (convertDatesToObjects b))
  | _ => None
  end.

Definition passes_validation (req : Request) : bool :=
  match validation req with
  | Some (ZodError _) => false
  | _ => true
  end.

(** The body the handler works on: the parsed one after [validateBody]. *)
Definition parsed_body (req : Request) (raw : obj) : obj :=
  match validation req with
  | Some (ParseOk data) => data
  | _ => raw
  end.

(** The status of a request that goes through. *)
Definition success_status (req : Request) : Z :=
  match req with
  | PostUsers _ | PostTeams _ | PostTeamMembers _ _ | PostProjects _
  | PostTasks _ | PostTaskComments _ _ | PostFiles _ | PostTeamMessages _ _ => 201
  | _ => 200
  end.

(** Removing a member finds the membership it is to remove. *)
Definition removal_finds (st : S) (req : Request) : bool :=
  match req with
  | DeleteTeamMember t u => (removeTeamMember st t u).2
  | _ => true
  end.

(** *** Ownership chains *)

Inductive Link := LTeam | LProject | LTask | LComment | LFile | LMessage.

Definition link_name (l : Link) : string :=
  match l with
  | LTeam => "Team"
  | LProject => "Project"
  | LTask => "Task"
  | LComment => "Comment"
  | LFile => "File"
  | LMessage => "Message"
  end.

(** The answer to a missing link. *)
Definition not_found (l : Link) : Response :=
  {| status := 404; body := message (link_name l +:+ " not found") |}.

Definition found {A} (row : option A) : bool :=
  match row with
  | Some _ => true
  | None => false
  end.

(** A chain lists its links from the leaf outward, each with whether the
    store has it, and ends at the first link that is missing.  With
    [to_team] the chain of a project goes on to the team row. *)
Definition team_chain (st : S) (teamId : num) : list (Link * bool) :=
  [(LTeam, found (getTeam st teamId))].

Definition project_chain (to_team : bool) (st : S) (projectId : num)
    : list (Link * bool) :=
  match getProject st projectId with
  | None => [(LProject, false)]
  | Some p =>
      (LProject, true)
        :: (if to_team then team_chain st (Int (project_teamId p)) else [])
  end.

Definition task_chain (to_team : bool) (st : S) (taskId : num)
    : list (Link * bool) :=
  match getTask st taskId with
  | None => [(LTask, false)]
  | Some t => (LTask, true) :: project_chain to_team st (Int (task_projectId t))
  end.

(** The chain of a request; [None] for a route that resolves none or whose
    body [validateBody] rejects.  [leaf_only] tells, for a comment or a
    message and the actor at hand, whether the chain stops at the leaf. *)
Definition chain_of (to_team : bool) (leaf_only : Z → Z → bool) (st : S)
    (userId : Z) (req : Request) : option (list (Link * bool)) :=
  if negb (passes_validation req) then None else
  match req with
  | GetTeam id | PutTeam id _ | DeleteTeam id | GetTeamMembers id
  | GetTeamMembersCurrent id | PostTeamMembers id _ | DeleteTeamMember id _
  | GetTeamMessages id | PostTeamMessages id _ => Some (team_chain st id)
  | GetProjects (Some id) =>
      if num_truthy id then Some (team_chain st id) else None
  | PostProjects b =>
      Some (team_chain st (to_num (parsed_body req b !! "teamId")))
  | GetProject id | PutProject id _ | DeleteProject id | GetProjectFiles id =>
      Some (project_chain to_team st id)
  | GetTasks (Some id) _ =>
      if num_truthy id then Some (project_chain to_team st id) else None
  | PostTasks b =>
      Some (project_chain to_team st (to_num (parsed_body req b !! "projectId")))
  | PostFiles b => Some (project_chain to_team st (to_num (b !! "projectId")))
  | GetTask id | PutTask id _ | PutTaskStatus id _ | DeleteTask id
  | GetTaskComments id | PostTaskComments id _ | GetTaskFiles id =>
      Some (task_chain to_team st id)
  | DeleteComment id =>
      Some match getComment st id with
           | None => [(LComment, false)]
           | Some c =>
               (LComment, true)
                 :: (if leaf_only (comment_userId c) userId then []
                     else task_chain to_team st (Int (comment_taskId c)))
           end
  | DeleteFile id =>
      Some match getFile st id with
           | None => [(LFile, false)]
           | Some f =>
               (LFile, true) :: project_chain to_team st (Int (file_projectId f))
           end
  | DeleteMessage id =>
      Some match getMessage st id with
           | None => [(LMessage, false)]
           | Some m =>
               (LMessage, true)
                 :: (if to_team then team_chain st (Int (message_teamId m)) else [])
           end
  | _ => None
  end.

(** The ownership chain as the specification describes it: from the leaf
    outward to the team, for every actor. *)
Definition ownership_chain : S → Z → Request → option (list (Link * bool)) :=
  chain_of true (λ _ _, false).

(** The links the handlers look up: the team row only when the request names
    the team, and nothing beyond a comment that its author deletes. *)
Definition checked_chain : S → Z → Request → option (list (Link * bool)) :=
  chain_of false (λ author userId, bool_decide (author = userId)).

Definition first_missing (c : list (Link * bool)) : option Link :=
  fst <$> List.find (λ lb, negb lb.2) c.

(** *** Deletions *)

Definition is_delete (req : Request) : bool :=
  match req with
  | DeleteUser _ | DeleteTeam _ | DeleteTeamMember _ _ | DeleteProject _
  | DeleteTask _ | DeleteComment _ | DeleteFile _ | DeleteMessage _ => true
  | _ => false
  end.

(** The deletions that look their target up before anything else. *)
Definition lookup_first (req : Request) : bool :=
  match req with
  | DeleteTeam _ | DeleteProject _ | DeleteTask _ | DeleteComment _
  | DeleteFile _ | DeleteMessage _ => true
  | _ => false
  end.

(** Does the target of a deletion resolve to a row of the store? *)
Definition target_resolves (st : S) (req : Request) : bool :=
  match req with
  | DeleteUser id => found (getUser st id)
  | DeleteTeam id => found (getTeam st id)
  | DeleteTeamMember t u =>
      found (getTeam st t)
      && existsb (λ m, num_seq (Int (member_userId m)) u) (getTeamMembers st t)
  | DeleteProject id => found (getProject st id)
  | DeleteTask id => found (getTask st id)
  | DeleteComment id => found (getComment st id)
  | DeleteFile id => found (getFile st id)
  | DeleteMessage id => found (getMessage st id)
  | _ => true
  end.

(** The identifier in the path of a deletion. *)
Definition target_id (req : Request) : option num :=
  match req with
  | DeleteUser id | DeleteTeam id | DeleteProject id | DeleteTask id
  | DeleteComment id | DeleteFile id | DeleteMessage id => Some id
  | _ => None
  end.

End Policy.

(** ** What the handlers rely on from the persistence layer *)

(** Modelled from the spec: the contract of the accessors of [./storage].
    "The persistence lookup must treat [NaN] as not found"; a row is found
    under its own identifier; a deleted row is gone and a deletion that finds
    nothing changes nothing; a created row is stored with the columns it was
    given. *)
Class StorageLaws (S : Type) `{!Storage S} : Prop := {
  getUser_NaN (st : S) : getUser st NaN = None;
  getTeam_NaN (st : S) : getTeam st NaN = None;
  getProject_NaN (st : S) : getProject st NaN = None;
  getTask_NaN (st : S) : getTask st NaN = None;
  getComment_NaN (st : S) : getComment st NaN = None;
  getFile_NaN (st : S) : getFile st NaN = None;
  getMessage_NaN (st : S) : getMessage st NaN = None;

  getTeam_id (st : S) id t : getTeam st id = Some t → id = Int (team_id t);
  getProject_id (st : S) id p : getProject st id = Some p → id = Int (project_id p);
  getTask_id (st : S) id t : getTask st id = Some t → id = Int (task_id t);

  deleteTeam_gone (st : S) id : getTeam (deleteTeam st id).1 id = None;
  deleteProject_gone (st : S) id : getProject (deleteProject st id).1 id = None;
  deleteTask_gone (st : S) id : getTask (deleteTask st id).1 id = None;
  deleteComment_gone (st : S) id : getComment (deleteComment st id).1 id = None;
  deleteFile_gone (st : S) id : getFile (deleteFile st id).1 id = None;
  deleteMessage_gone (st : S) id : getMessage (deleteMessage st id).1 id = None;

  deleteUser_missing (st : S) id :
    getUser st id = None → deleteUser st id = (st, false);
  removeTeamMember_missing (st : S) t u :
    existsb (λ m, num_seq (Int (member_userId m)) u) (getTeamMembers st t) = false →
    removeTeamMember st t u = (st, false);

  createComment_stored (st : S) o :
    let '(st1, c) := createComment st o in
    getComment st1 (Int (comment_id c)) = Some c
    ∧ ∀ z, o !! "userId" = Some (JNum z) → comment_userId c = z;
  createMessage_stored (st : S) o :
    let '(st1, m) := createMessage st o in
    getMessage st1 (Int (message_id m)) = Some m
    ∧ ∀ z, o !! "userId" = Some (JNum z) → message_userId m = z;
  createFile_stored (st : S) o :
    let '(st1, f) := createFile st o in
    getFile st1 (Int (file_id f)) = Some f
    ∧ ∀ z, o !! "uploadedBy" = Some (JNum z) → file_uploadedBy f = z;
  addTeamMember_stored (st : S) o t u r :
    o !! "teamId" = Some (JNum t) →
    o !! "userId" = Some (JNum u) →
    o !! "role" = Some (JStr r) →
    let '(st1, m) := addTeamMember st o in
    m = {| member_teamId := t; member_userId := u; member_role := r |}
    ∧ m ∈ getTeamMembers st1 (Int t)
}.

(** ** A store to run the handlers on *)

Module Demo.
Import MemStorage.

Definition mkUser (id : Z) (name role : string) : User :=
  {| user_id := id; user_username := name; user_email := name +:+ "@teamflow.com";
     user_password := "secret-" +:+ name; user_fullName := None;
     user_avatar := None; user_role := role; user_userType := "normal" |}.

(** Team 1 has the admin 1 and the member 2; user 3 once was a member and
    user 4 is a global admin outside of the team.  Project 1, task 1 and the
    comments, files and messages belong to team 1; project 2 and its task 2
    name a team 9 that is gone; comment 3 hangs on a task that is gone. *)
Definition store0 : MemStore :=
  {| users := [mkUser 1 "ann" "admin"; mkUser 2 "bob" "member";
               mkUser 3 "cyd" "member"; mkUser 4 "dan" "admin"];
     teams := [{| team_id := 1; team_name := "Eng"; team_description := None;
                  team_createdBy := 1 |}];
     teamMembers := [{| member_teamId := 1; member_userId := 1; member_role := "admin" |};
                     {| member_teamId := 1; member_userId := 2; member_role := "member" |}];
     projects := [{| project_id := 1; project_teamId := 1; project_name := "Site";
                     project_startDate := None; project_dueDate := None |};
                  {| project_id := 2; project_teamId := 9; project_name := "Old";
                     project_startDate := None; project_dueDate := None |}];
     tasks := [{| task_id := 1; task_projectId := 1; task_title := "Draft";
                  task_status := "todo"; task_order := 0;
                  task_assigneeId := Some 2; task_dueDate := None |};
               {| task_id := 2; task_projectId := 2; task_title := "Archive";
                  task_status := "done"; task_order := 0;
                  task_assigneeId := None; task_dueDate := None |}];
     comments := [{| comment_id := 1; comment_taskId := 1; comment_userId := 2;
                     comment_content := "first" |};
                  {| comment_id := 2; comment_taskId := 1; comment_userId := 3;
                     comment_content := "second" |};
                  {| comment_id := 3; comment_taskId := 7; comment_userId := 3;
                     comment_content := "third" |}];
     files := [{| file_id := 1; file_projectId := 1; file_taskId := Some 1;
                  file_uploadedBy := 2; file_name := "a.txt" |};
               {| file_id := 2; file_projectId := 1; file_taskId := None;
                  file_uploadedBy := 3; file_name := "b.txt" |}];
     messages := [{| message_id := 1; message_teamId := 1; message_userId := 2;
                     message_content := "hello" |};
                  {| message_id := 2; message_teamId := 1; message_userId := 3;
                     message_content := "bye" |}] |}.


(** The bootstrap credentials, and the store after their first use on an
    empty store. *)
Definition bootstrap : obj :=
  {[ "username" := JStr "admin"; "password" := JStr "pass123" ]}.

Definition bootstrapped : MemStore :=
  store (handle (PostAuthLogin bootstrap) None empty).

End Demo.

(** ** The routes by what guards them *)

Section Guards.
Context {S : Type} `{!Storage S} `{!Schemas}.

(** The routes registered with [requireAuth]: all but login and logout. *)
Definition behind_requireAuth (req : Request) : bool :=
  match req with
  | PostAuthLogin _ | PostAuthLogout => false
  | _ => true
  end.

(** The routes registered with [app.get]. *)
Definition is_get (req : Request) : bool :=
  match req with
  | GetAuthMe | GetUsers | GetUser _ | GetTeams | GetTeam _ | GetTeamMembers _
  | GetTeamMembersCurrent _ | GetProjects _ | GetProject _ | GetTasks _ _
  | GetTask _ | GetTaskComments _ | GetProjectFiles _ | GetTaskFiles _
  | GetTeamMessages _ => true
  | _ => false
  end.

(** The answer of [validateBody] to a body that its schema rejects. *)
Definition validation_error (errors : json) : Response :=
  {| status := 400;
     body := JObj {[ "message" := JStr "Validation error"; "errors" := errors ]} |}.

(** The team whose member list a handler reads to admit the actor, once the
    rows on the way to it are found: the team of the path, of the query or
    of the parsed body, or the team of the project that the request leads
    to.  [None] for the routes that read no member list and for
    [GET /api/teams/:id/members/current], which reports a missing membership
    as 404. *)
Definition gate_team (st : S) (req : Request) : option num :=
  match req with
  | GetTeamMembers t | GetTeamMessages t | PostTeamMessages t _ =>
      (λ _, t) <$> getTeam st t
  | GetProjects (Some t) =>
      if num_truthy t then (λ _, t) <$> getTeam st t else None
  | PostProjects b =>
      let t := to_num (parsed_body req b !! "teamId") in (λ _, t) <$> getTeam st t
  | GetProject id | GetProjectFiles id => team_of_project st id
  | GetTasks (Some p) _ => if num_truthy p then team_of_project st p else None
  | PostTasks b => team_of_project st (to_num (parsed_body req b !! "projectId"))
  | PostFiles b => team_of_project st (to_num (b !! "projectId"))
  | GetTask id | PutTaskStatus id _ | GetTaskComments id | PostTaskComments id _
  | GetTaskFiles id => team_of_task st id
  | _ => owning_team st req
  end.


(** What a member of the team reads on the routes that list or show the
    rows of a team. *)
Definition member_view (st : S) (req : Request) : option json :=
  match req with
  | GetTeamMembers t => Some (JArr (JObj ∘ member_obj <$> getTeamMembers st t))
  | GetTeamMessages t =>
      Some (JArr ((λ msg,
                     JObj (<[ "user" := JObj (userWithoutPassword (user_obj (mu_user msg))) ]>
                             (message_with_user_obj msg)))
                    <$> getMessagesByTeam st t))
  | GetProjects (Some t) =>
      Some (JArr (JObj ∘ project_obj <$> getProjectsByTeam st t))
  | GetProject id => JObj ∘ project_obj <$> getProject st id
  | GetProjectFiles id =>
      Some (JArr (JObj ∘ file_obj <$> getFilesByProject st id))
  | GetTasks (Some p) _ => Some (JArr (JObj ∘ task_obj <$> getTasksByProject st p))
  | GetTask id => JObj ∘ task_obj <$> getTask st id
  | GetTaskComments id =>
      Some (JArr (JObj ∘ comment_with_user_obj <$> getCommentsByTask st id))
  | GetTaskFiles id => Some (JArr (JObj ∘ file_obj <$> getFilesByTask st id))
  | _ => None
  end.

(** The row that [POST /api/tasks/:taskId/comments] creates:
    [{ ...req.body, taskId, userId: req.session.userId }]. *)
Definition comment_row (taskId : num) (userId : Z) (req_body : obj) : obj :=
  <[ "userId" := JNum userId ]> (<[ "taskId" := of_num taskId ]> req_body).

(** The row that [POST /api/teams/:teamId/messages] creates. *)
Definition message_row (teamId : num) (userId : Z) (req_body : obj) : obj :=
  <[ "userId" := JNum userId ]> (<[ "teamId" := of_num teamId ]> req_body).

(** The write that a request asks of the store, and the store that comes
    back from it; the store itself for a request that asks for none. *)
Definition requested_write (st : S) (req : Request) : S :=
  match req with
  | PutTeam id b =>
      match getTeam st id with
      | Some team => (updateTeam st (Int (team_id team)) b).1
      | None => st
      end
  | DeleteTeam id =>
      match getTeam st id with
      | Some team => (deleteTeam st (Int (team_id team))).1
      | None => st
      end
  | PostTeamMembers id b =>
      (addTeamMember st (<[ "teamId" := of_num id ]> (parsed_body req b))).1
  | DeleteTeamMember teamId userId => (removeTeamMember st teamId userId).1
  | PutProject id b =>
      match getProject st id with
      | Some project =>
          (updateProject st (Int (project_id project)) (convertDatesToObjects b)).1
      | None => st
      end
  | DeleteProject id =>
      match getProject st id with
      | Some project => (deleteProject st (Int (project_id project))).1
      | None => st
      end
  | PutTask id b =>
      match getTask st id with
      | Some task => (updateTask st (Int (task_id task)) (convertDatesToObjects b)).1
      | None => st
      end
  | DeleteTask id =>
      match getTask st id with
      | Some task => (deleteTask st (Int (task_id task))).1
      | None => st
      end
  | DeleteComment id => (deleteComment st id).1
  | DeleteFile id => (deleteFile st id).1
  | DeleteMessage id => (deleteMessage st id).1
  | _ => st
  end.

End Guards.

(** A store in which user 9 is a member of team 1 and has no user row. *)
Module Scenario.
Import MemStorage Demo.

Definition orphaned : MemStore :=
  with_teamMembers
    (λ l, l ++ [{| member_teamId := 1; member_userId := 9; member_role := "member" |}])
    store0.

(** The admin row of a store whose admin changed the password. *)
Definition rekeyed : MemStore :=
  with_users (λ _, [{| user_id := 1; user_username := "admin";
                       user_email := "admin@teamflow.com";
                       user_password := "changed"; user_fullName := None;
                       user_avatar := None; user_role := "admin";
                       user_userType := "normal" |}])
    empty.

(** Schemas of which the one for teams asks for a [name]. *)
Definition named_teams : Schemas :=
  {| insertUserSchema := ParseOk;
     insertTeamSchema :=
       λ b, if truthy (b !! "name") then ParseOk b
            else ZodError (JArr [JStr "name"]);
     insertTeamMemberSchema := ParseOk;
     insertProjectSchema := ParseOk;
     insertTaskSchema := ParseOk;
     insertCommentSchema := ParseOk;
     insertFileSchema := ParseOk;
     insertMessageSchema_omit := ParseOk |}.

End Scenario.

(** * Properties *)

(** ** Strict equality of numbers *)

Lemma num_seq_eq a b : num_seq a b = true → a = b.
Proof. destruct a, b; simpl; try done. intros ?%bool_decide_eq_true. by subst. Qed.

Lemma num_seq_Int_refl z : num_seq (Int z) (Int z) = true.
Proof. simpl. by apply bool_decide_eq_true. Qed.

(** ** The in-memory store keeps the contract of the persistence layer *)

Module MemStorageFacts.
Import MemStorage.

Lemma lookup_row_NaN {A} (key : A → Z) rows : lookup_row key NaN rows = None.
Proof. by induction rows. Qed.

Lemma lookup_row_id {A} (key : A → Z) id rows row :
  lookup_row key id rows = Some row → id = Int (key row).
Proof.
  intros [_ Hid]%find_some. symmetry. by apply num_seq_eq.
Qed.

Lemma lookup_drop_row {A} (key : A → Z) id rows :
  lookup_row key id (drop_row key id rows) = None.
Proof.
  induction rows as [|row rows IH]; [done|].
  unfold lookup_row, drop_row in *. simpl.
  destruct (has_id key id row) eqn:Hrow; simpl; [done|]. by rewrite Hrow.
Qed.

Lemma key_lt_next_id {A} (key : A → Z) rows row :
  In row rows → key row < next_id key rows.
Proof.
  unfold next_id. induction rows as [|r rows IH]; simpl; [done|].
  intros [->|Hin]; [lia|]. specialize (IH Hin). lia.
Qed.

Lemma lookup_row_new {A} (key : A → Z) rows row :
  key row = next_id key rows →
  lookup_row key (Int (key row)) (rows ++ [row]) = Some row.
Proof.
  intros Hkey. unfold lookup_row.
  assert (Hold : ∀ r, In r rows → has_id key (Int (key row)) r = false).
  { intros r Hr%(key_lt_next_id key). unfold has_id. simpl.
    apply bool_decide_eq_false. lia. }
  clear Hkey. induction rows as [|r rows IH]; simpl.
  - unfold has_id. by rewrite num_seq_Int_refl.
  - rewrite Hold; [|by left]. apply IH. intros r' Hr'. apply Hold. by right.
Qed.

Lemma col_int_num (o : obj) k z old : o !! k = Some (JNum z) → col_int o k old = z.
Proof. unfold col_int. by intros ->. Qed.

Lemma col_str_str (o : obj) k s old : o !! k = Some (JStr s) → col_str o k old = s.
Proof. unfold col_str. by intros ->. Qed.

Lemma no_membership t u rows :
  existsb (λ m, num_seq (Int (member_userId m)) u)
          (List.filter (has_id member_teamId t) rows) = false →
  existsb (is_membership t u) rows = false.
Proof.
  induction rows as [|m rows IH]; [done|].
  cbn [existsb List.filter]. unfold is_membership at 1.
  destruct (has_id member_teamId t m); cbn [existsb andb orb]; [|done].
  intros [Hm Hrest]%orb_false_elim. unfold has_id. rewrite Hm. auto.
Qed.

#[export] Instance laws : StorageLaws MemStore.
Proof.
  split; simpl.
  - intros st. apply lookup_row_NaN.
  - intros st. apply lookup_row_NaN.
  - intros st. apply lookup_row_NaN.
  - intros st. apply lookup_row_NaN.
  - intros st. apply lookup_row_NaN.
  - intros st. apply lookup_row_NaN.
  - intros st. apply lookup_row_NaN.
  - intros st id t. apply lookup_row_id.
  - intros st id t. apply lookup_row_id.
  - intros st id t. apply lookup_row_id.
  - intros st id. unfold mem_deleteTeam.
    destruct (mem_getTeam st id) eqn:E; [apply lookup_drop_row|done].
  - intros st id. unfold mem_deleteProject.
    destruct (mem_getProject st id) eqn:E; [apply lookup_drop_row|done].
  - intros st id. unfold mem_deleteTask.
    destruct (mem_getTask st id) eqn:E; [apply lookup_drop_row|done].
  - intros st id. unfold mem_deleteComment.
    destruct (mem_getComment st id) eqn:E; [apply lookup_drop_row|done].
  - intros st id. unfold mem_deleteFile.
    destruct (mem_getFile st id) eqn:E; [apply lookup_drop_row|done].
  - intros st id. unfold mem_deleteMessage.
    destruct (mem_getMessage st id) eqn:E; [apply lookup_drop_row|done].
  - intros st id E. unfold mem_deleteUser. by rewrite E.
  - intros st t u E. unfold mem_removeTeamMember.
    by rewrite (no_membership _ _ _ E).
  - intros st o. split.
    + unfold mem_getComment. simpl. by apply (lookup_row_new comment_id _ (Build_Comment _ _ _ _)).
    + intros z E. simpl. by apply col_int_num.
  - intros st o. split.
    + unfold mem_getMessage. simpl. by apply (lookup_row_new message_id _ (Build_Message _ _ _ _)).
    + intros z E. simpl. by apply col_int_num.
  - intros st o. split.
    + unfold mem_getFile. simpl. by apply (lookup_row_new file_id _ (Build_File _ _ _ _ _)).
    + intros z E. simpl. by apply col_int_num.
  - intros st o t u r Et Eu Er. unfold mem_getTeamMembers. simpl.
    rewrite (col_int_num _ _ _ _ Et), (col_int_num _ _ _ _ Eu), (col_str_str _ _ _ _ Er).
    split; [done|].
    apply list_elem_of_In, filter_In. split.
    + apply in_or_app. right. by left.
    + unfold has_id. simpl. by apply bool_decide_eq_true.
Qed.

End MemStorageFacts.

(** ** Facts about the middleware and the membership tests *)

Section Facts.
Context {S : Type} `{!Storage S} `{!Schemas}.
Implicit Types (st : S) (userId : Z) (req : Request).

Lemma some_member_found userId l :
  some_member userId l = found (find_member userId l).
Proof.
  unfold some_member, find_member. induction l as [|m l IH]; simpl; [done|].
  by destruct (bool_decide (member_userId m = userId)).
Qed.

Lemma team_role_find st teamId userId r :
  team_role st teamId userId = Some r →
  ∃ m, find_member userId (getTeamMembers st teamId) = Some m ∧ member_role m = r.
Proof.
  unfold team_role. destruct (find_member _ _) as [m|]; simpl; [|done].
  intros [= <-]. eauto.
Qed.

Lemma team_role_some_member st teamId userId r :
  team_role st teamId userId = Some r →
  some_member userId (getTeamMembers st teamId) = true.
Proof.
  intros (m & Hm & _)%team_role_find. by rewrite some_member_found, Hm.
Qed.

(** Behind [requireAuth], a request of a signed-in user runs its handler. *)
Lemma authed_signed_in userId next st :
  userId ≠ 0 →
  authed (Some userId) next st
  = {| response := (next userId st).1; store := (next userId st).2;
       session := Some userId |}.
Proof.
  intros Hid. unfold authed, requireAuth. rewrite bool_decide_true by done.
  by destruct (next userId st).
Qed.

(** Without a session every route behind [requireAuth] answers 401. *)
Lemma authed_signed_out next st :
  authed None next st
  = {| response := {| status := 401; body := message "Unauthorized" |};
       store := st; session := None |}.
Proof. done. Qed.

End Facts.

(** Runs a request of a signed-in user down to its handler. *)
Ltac enter Hid :=
  unfold status_of, handle; rewrite ?(authed_signed_in _ _ _ Hid); simpl.

(** ** Reading a team *)

Section ReadTeam.
Context {S : Type} `{!Storage S} `{!Schemas}.

(** [GET /api/teams/:id] looks the team up and answers with it; the member
    list is not read, so the answer is the same for a member and for anyone
    else who is signed in. *)
Lemma get_team_ignores_membership (st : S) userId id team :
  userId ≠ 0 →
  getTeam st id = Some team →
  response (handle (GetTeam id) (Some userId) st)
  = {| status := 200; body := JObj (team_obj team) |}.
Proof.
  intros Hid Hteam. enter Hid. unfold get_api_teams_id. by rewrite Hteam.
Qed.

End ReadTeam.

Import MemStorage Demo.

(** C2 (defect of the code).  User 3 is signed in and is no member of team 1:
    [team_role] finds no membership.  [GET /api/teams/1] still answers 200
    with the team, where the claim asks for a denial. *)
Theorem get_team_served_to_non_member :
  team_role store0 (Int 1) 3 = None
  ∧ response (handle (GetTeam (Int 1)) (Some 3) store0)
    = {| status := 200;
         body := JObj (team_obj {| team_id := 1; team_name := "Eng";
                                   team_description := None;
                                   team_createdBy := 1 |}) |}.
Proof. split; [reflexivity|]. by apply get_team_ignores_membership. Qed.

(** ** Listing tasks by assignee *)

Section TasksByAssignee.
Context {S : Type} `{!Storage S} `{!Schemas}.

(** C3.  For a signed-in actor and [?assigneeId=U] without [projectId],
    where [U] is the id of a user, a number other than [0] (which
    [requireAuth] takes for no user) and [NaN]: when [U] differs from the
    actor, the answer is 403, whatever the actor's global role (the handler
    never reads it); when [U] is the actor, the answer is the list of the
    tasks assigned to the actor.  A value that parses to [0] or [NaN] is the
    id of no user and counts as no filter: the actor's own tasks are
    listed. *)
Theorem tasks_of_assignee (st : S) userId U :
  userId ≠ 0 →
  let out := handle (GetTasks None (Some U)) (Some userId) st in
  let own :=
    {| status := 200;
       body := JArr (JObj ∘ task_obj <$> getTasksByAssignee st (Int userId)) |} in
  (num_truthy U = true → U ≠ Int userId →
   response out
   = {| status := 403;
        body := message "Not authorized to view other users' tasks" |}
   ∧ store out = st)
  ∧ (U = Int userId → response out = own ∧ store out = st)
  ∧ (num_truthy U = false → response out = own ∧ store out = st).
Proof.
  intros Hid out own. subst out own. enter Hid. unfold get_api_tasks. simpl.
  split; [|split].
  - intros -> HU. destruct U as [|z]; [done|]. simpl.
    rewrite bool_decide_false by congruence. done.
  - intros ->. simpl. rewrite !bool_decide_true by done. done.
  - intros ->. done.
Qed.

End TasksByAssignee.

Lemma tasks_of_assignee_witness :
  2 ≠ 0
  ∧ status_of (handle (GetTasks None (Some (Int 1))) (Some 2) store0) = 403.
Proof.
  split; [lia|].
  destruct (tasks_of_assignee store0 2 (Int 1) ltac:(lia)) as [Hother _].
  unfold status_of. by rewrite (proj1 (Hother eq_refl ltac:(discriminate))).
Defined.

(** ** Operations for team admins *)

Section AdminOnly.
Context {S : Type} `{!Storage S} `{!Schemas}.
Implicit Types (st : S) (userId : Z) (req : Request).

Lemma not_team_admin_role st teamId userId r :
  team_role st teamId userId = Some r →
  not_team_admin (find_member userId (getTeamMembers st teamId))
  = bool_decide (r ≠ "admin").
Proof. by intros (m & -> & <-)%team_role_find. Qed.

(** C1, as amended.  For a signed-in actor with a membership in the owning
    team and a payload that passes validation: updating and deleting the
    team, adding a member, removing another member, and updating and deleting
    a project answer 403 and leave the store alone when the actor's role is
    not ["admin"]; when it is ["admin"] the handler makes the write it was
    asked for and answers with the status of success, except that a removal
    for which the store finds no membership answers 404 "Team member not
    found".  Updating and deleting a task make their write and answer 200
    for a member of either role. *)
Theorem admin_only_operations st userId req teamId :
  userId ≠ 0 →
  passes_validation req = true →
  owning_team st req = Some teamId →
  let out := handle req (Some userId) st in
  (admin_only userId req = true →
   (∀ r, team_role st teamId userId = Some r → r ≠ "admin" →
         status_of out = 403 ∧ store out = st)
   ∧ (team_role st teamId userId = Some "admin" →
      store out = requested_write st req
      ∧ (removal_finds st req = true → status_of out = success_status req)
      ∧ (removal_finds st req = false →
         response out
         = {| status := 404; body := message "Team member not found" |})))
  ∧ (task_write req = true →
     ∀ r, team_role st teamId userId = Some r →
          status_of out = 200 ∧ store out = requested_write st req).
Proof.
  intros Hid Hvalid Hteam out. subst out.
  split; [intros Hop; split; [intros r Hrole Hr | intros Hrole]
         |intros Hop r Hrole];
    destruct req; try discriminate Hop; try discriminate Hteam;
    simpl in Hteam; enter Hid.
  (* a role other than admin *)
  - unfold put_api_teams_id. destruct (getTeam st id) as [team|]; simplify_eq/=.
    rewrite (not_team_admin_role _ _ _ _ Hrole), bool_decide_true by done. done.
  - unfold delete_api_teams_id. destruct (getTeam st id) as [team|]; simplify_eq/=.
    rewrite (not_team_admin_role _ _ _ _ Hrole), bool_decide_true by done. done.
  - unfold passes_validation in Hvalid. simpl in Hvalid. unfold validateBody.
    destruct (insertTeamMemberSchema _) as [data|]; [|done].
    unfold post_api_teams_id_members.
    destruct (getTeam st id) as [team|]; simplify_eq/=.
    rewrite (not_team_admin_role _ _ _ _ Hrole), bool_decide_true by done. done.
  - unfold delete_api_teams_teamId_members_userId.
    destruct (getTeam st teamId0) as [team|]; simplify_eq/=.
    apply team_role_find in Hrole as (m & -> & <-).
    rewrite bool_decide_true by done. simpl in Hop. by rewrite Hop.
  - unfold put_api_projects_id, team_of_project in *.
    destruct (getProject st id) as [project|]; simplify_eq/=.
    rewrite (not_team_admin_role _ _ _ _ Hrole), bool_decide_true by done. done.
  - unfold delete_api_projects_id, team_of_project in *.
    destruct (getProject st id) as [project|]; simplify_eq/=.
    rewrite (not_team_admin_role _ _ _ _ Hrole), bool_decide_true by done. done.
  (* the role admin *)
  - unfold put_api_teams_id. destruct (getTeam st id) as [team|]; simplify_eq/=.
    rewrite (not_team_admin_role _ _ _ _ Hrole), bool_decide_false by naive_solver.
    by destruct (updateTeam _ _ _).
  - unfold delete_api_teams_id. destruct (getTeam st id) as [team|]; simplify_eq/=.
    rewrite (not_team_admin_role _ _ _ _ Hrole), bool_decide_false by naive_solver.
    by destruct (deleteTeam _ _).
  - unfold passes_validation, parsed_body in *. simpl in *. unfold validateBody.
    destruct (insertTeamMemberSchema _) as [data|]; [|done].
    unfold post_api_teams_id_members.
    destruct (getTeam st id) as [team|]; simplify_eq/=.
    rewrite (not_team_admin_role _ _ _ _ Hrole), bool_decide_false by naive_solver.
    by destruct (addTeamMember _ _).
  - unfold delete_api_teams_teamId_members_userId.
    destruct (getTeam st teamId0) as [team|]; simplify_eq/=.
    apply team_role_find in Hrole as (m & -> & Hm).
    rewrite bool_decide_false by naive_solver. simpl.
    by destruct (removeTeamMember _ _ _) as [? []].
  - unfold put_api_projects_id, team_of_project in *.
    destruct (getProject st id) as [project|]; simplify_eq/=.
    rewrite (not_team_admin_role _ _ _ _ Hrole), bool_decide_false by naive_solver.
    by destruct (updateProject _ _ _).
  - unfold delete_api_projects_id, team_of_project in *.
    destruct (getProject st id) as [project|]; simplify_eq/=.
    rewrite (not_team_admin_role _ _ _ _ Hrole), bool_decide_false by naive_solver.
    by destruct (deleteProject _ _).
  (* writes to a task *)
  - unfold put_api_tasks_id, team_of_task, team_of_project in *.
    destruct (getTask st id) as [task|]; simplify_eq/=.
    destruct (getProject st _) as [project|]; simplify_eq/=.
    rewrite (team_role_some_member _ _ _ _ Hrole). simpl.
    by destruct (updateTask _ _ _).
  - unfold delete_api_tasks_id, team_of_task, team_of_project in *.
    destruct (getTask st id) as [task|]; simplify_eq/=.
    destruct (getProject st _) as [project|]; simplify_eq/=.
    rewrite (team_role_some_member _ _ _ _ Hrole). simpl.
    by destruct (deleteTask _ _).
Qed.

End AdminOnly.

(** C1, as stated, fails: user 2 has the role ["member"] in team 1, which
    owns task 1, and [PUT /api/tasks/1] answers 200, not 403. *)
Lemma task_update_open_to_members :
  admin_only_listed 2 (PutTask (Int 1) ∅) = true
  ∧ owning_team store0 (PutTask (Int 1) ∅) = Some (Int 1)
  ∧ team_role store0 (Int 1) 2 = Some "member"
  ∧ status_of (handle (PutTask (Int 1) ∅) (Some 2) store0) = 200.
Proof. repeat split; reflexivity. Qed.

Lemma admin_only_operations_witness :
  2 ≠ 0
  ∧ passes_validation (DeleteTeam (Int 1)) = true
  ∧ owning_team store0 (DeleteTeam (Int 1)) = Some (Int 1)
  ∧ status_of (handle (DeleteTeam (Int 1)) (Some 2) store0) = 403.
Proof.
  split; [lia|]. split; [reflexivity|]. split; [reflexivity|].
  destruct (admin_only_operations store0 2 (DeleteTeam (Int 1)) (Int 1)
              ltac:(lia) ltac:(reflexivity) ltac:(reflexivity))
    as [Hadmin _].
  destruct (Hadmin ltac:(reflexivity)) as [Hmember _].
  apply (Hmember "member"); [reflexivity|discriminate].
Defined.

(** ** Deleting comments, files and messages *)

Section DeleteOwned.
Context {S : Type} `{!Storage S} `{!Schemas}.
Implicit Types (st : S) (userId : Z) (req : Request).

(** C4.  For an existing comment, file or message whose ownership chain
    resolves to a team in which the actor has a membership with role [r]:
    the deletion goes through (the answer is 200 and the store is the one
    that the deletion of the row returns) when the actor is the author or
    uploader, whatever [r] is, and when [r] is ["admin"]; any other member
    gets 403 and the store stays as it is. *)
Theorem delete_by_author_or_admin st userId req author teamId r :
  userId ≠ 0 →
  author_of st req = Some author →
  owning_team st req = Some teamId →
  team_role st teamId userId = Some r →
  let out := handle req (Some userId) st in
  (author = userId ∨ r = "admin" →
   status_of out = 200 ∧ store out = requested_write st req)
  ∧ (author ≠ userId → r ≠ "admin" → status_of out = 403 ∧ store out = st).
Proof.
  intros Hid Hauthor Hteam Hrole out. subst out.
  destruct req; try discriminate Hauthor; simpl in Hauthor, Hteam; enter Hid.
  - (* DELETE /api/comments/:id *)
    unfold delete_api_comments_id, team_of_task, team_of_project in *.
    destruct (getComment st id) as [comment|]; simplify_eq/=.
    destruct (getTask st _) as [task|]; simplify_eq/=.
    destruct (getProject st _) as [project|]; simplify_eq/=.
    rewrite (not_team_admin_role _ _ _ _ Hrole).
    split.
    + intros Hwho. case_bool_decide as Hother.
      * destruct Hwho as [Hsame | ->]; [done|].
        rewrite bool_decide_false by naive_solver. by destruct (deleteComment _ _).
      * by destruct (deleteComment _ _).
    + intros Hother Hr. by rewrite !bool_decide_true by done.
  - (* DELETE /api/files/:id *)
    unfold delete_api_files_id, team_of_project in *.
    destruct (getFile st id) as [file|]; simplify_eq/=.
    destruct (getProject st _) as [project|]; simplify_eq/=.
    apply team_role_find in Hrole as (m & -> & <-).
    split.
    + intros Hwho.
      destruct (bool_decide (file_uploadedBy file ≠ userId)) eqn:Hother; simpl.
      * apply bool_decide_eq_true in Hother. destruct Hwho as [|Hadmin]; [done|].
        rewrite bool_decide_false by naive_solver. by destruct (deleteFile _ _).
      * by destruct (deleteFile _ _).
    + intros Hother Hr. by rewrite !bool_decide_true by done.
  - (* DELETE /api/messages/:id *)
    unfold delete_api_messages_id in *.
    destruct (getMessage st id) as [msg|]; simplify_eq/=.
    rewrite (not_team_admin_role _ _ _ _ Hrole).
    split.
    + intros Hwho. case_bool_decide as Hother.
      * destruct Hwho as [Hsame | ->]; [done|].
        rewrite bool_decide_false by naive_solver. by destruct (deleteMessage _ _).
      * by destruct (deleteMessage _ _).
    + intros Hother Hr. by rewrite !bool_decide_true by done.
Qed.

(** C10.  The author of a comment or of a message deletes it whatever the
    rest of the store holds: the handler reads neither the task, the project
    nor the member list on that path, so the author need not be a member any
    more and the task of the comment may be gone.  The uploader of a file, in
    contrast, gets 403 without a membership in the team of the file's
    project. *)
Theorem author_deletes_without_membership st userId :
  userId ≠ 0 →
  (∀ id c, getComment st id = Some c → comment_userId c = userId →
     let out := handle (DeleteComment id) (Some userId) st in
     response out
     = {| status := 200; body := message "Comment deleted successfully" |}
     ∧ store out = (deleteComment st id).1)
  ∧ (∀ id m, getMessage st id = Some m → message_userId m = userId →
     let out := handle (DeleteMessage id) (Some userId) st in
     response out
     = {| status := 200; body := message "Message deleted successfully" |}
     ∧ store out = (deleteMessage st id).1)
  ∧ (∀ id f p, getFile st id = Some f → file_uploadedBy f = userId →
     getProject st (Int (file_projectId f)) = Some p →
     find_member userId (getTeamMembers st (Int (project_teamId p))) = None →
     let out := handle (DeleteFile id) (Some userId) st in
     response out
     = {| status := 403; body := message "Not authorized to delete file" |}
     ∧ store out = st).
Proof.
  intros Hid. split; [|split].
  - intros id c Hc Hauthor out. subst out. enter Hid.
    unfold delete_api_comments_id. rewrite Hc.
    rewrite bool_decide_false by naive_solver. by destruct (deleteComment _ _).
  - intros id m Hm Hauthor out. subst out. enter Hid.
    unfold delete_api_messages_id. rewrite Hm.
    rewrite bool_decide_false by naive_solver. by destruct (deleteMessage _ _).
  - intros id f p Hf Huploader Hp Hnone out. subst out. enter Hid.
    unfold delete_api_files_id. by rewrite Hf, Hp, Hnone.
Qed.

End DeleteOwned.

Lemma delete_by_author_or_admin_witness :
  2 ≠ 0
  ∧ author_of store0 (DeleteFile (Int 1)) = Some 2
  ∧ owning_team store0 (DeleteFile (Int 1)) = Some (Int 1)
  ∧ team_role store0 (Int 1) 2 = Some "member"
  ∧ status_of (handle (DeleteFile (Int 1)) (Some 2) store0) = 200.
Proof.
  split; [lia|]. repeat (split; [reflexivity|]).
  refine (proj1 (proj1 (delete_by_author_or_admin store0 2 (DeleteFile (Int 1)) 2
                          (Int 1) "member" _ _ _ _) _));
    [lia | reflexivity | reflexivity | reflexivity | by left].
Defined.

(** User 3 wrote comment 3 and holds no membership; the task of the comment
    is gone.  The deletion goes through. *)
Lemma author_deletes_without_membership_witness :
  3 ≠ 0
  ∧ getTask store0 (Int 7) = None
  ∧ team_role store0 (Int 1) 3 = None
  ∧ status_of (handle (DeleteComment (Int 3)) (Some 3) store0) = 200.
Proof.
  split; [lia|]. split; [reflexivity|]. split; [reflexivity|].
  unfold status_of.
  refine (eq_ind_r (λ r, status r = 200) _
            (proj1 (proj1 (author_deletes_without_membership store0 3 _)
                      (Int 3) _ _ _)));
    [reflexivity | lia | reflexivity | reflexivity].
Defined.

(** ** Ownership chains *)

Section Chains.
Context {S : Type} `{!Storage S} `{!Schemas}.
Implicit Types (st : S) (userId : Z) (req : Request).

(** C5, as amended.  For every route that resolves an ownership chain and a
    signed-in actor, the handler looks the links of [checked_chain] up from
    the leaf outward before it decides on the membership: the first link
    that is missing ends the request with 404 and the name of that link, and
    the store stays as it is; 403 is only possible when all of these links
    exist.  The chain ends at the row that carries the team id: the team row
    itself is looked up only when the request names the team. *)
Theorem chain_checked_before_authorization st userId req c :
  userId ≠ 0 →
  checked_chain st userId req = Some c →
  let out := handle req (Some userId) st in
  (∀ l, first_missing c = Some l → response out = not_found l ∧ store out = st)
  ∧ (status_of out = 403 → first_missing c = None).
Proof.
  intros Hid Hchain out. subst out.
  unfold checked_chain, chain_of in Hchain.
  destruct (passes_validation req) eqn:Hvalid; simpl in Hchain; [|done].
  unfold first_missing, not_found.
  destruct req; simplify_eq/=; enter Hid;
    unfold passes_validation, parsed_body, validateBody in *; simpl in *;
    unfold get_api_teams_id, put_api_teams_id, delete_api_teams_id,
      get_api_teams_id_members, get_api_teams_id_members_current,
      post_api_teams_id_members, delete_api_teams_teamId_members_userId,
      get_api_projects, post_api_projects, get_api_projects_id,
      put_api_projects_id, delete_api_projects_id, get_api_tasks,
      post_api_tasks, get_api_tasks_id, put_api_tasks_id,
      put_api_tasks_id_status, delete_api_tasks_id,
      get_api_tasks_taskId_comments, post_api_tasks_taskId_comments,
      delete_api_comments_id, get_api_projects_projectId_files,
      get_api_tasks_taskId_files, post_api_files, delete_api_files_id,
      get_api_teams_teamId_messages, post_api_teams_teamId_messages,
      delete_api_messages_id, task_chain, project_chain, team_chain,
      query_truthy, found in *;
    repeat case_match; simplify_eq/=;
    (split; [intros l Hl | intros Hst]); simplify_eq/=; try done.
  all: exfalso;
    match goal with
    | Hsame : bool_decide (?a = ?b) = false,
      Hother : bool_decide (?a ≠ ?b) = false |- _ =>
        apply bool_decide_eq_false in Hsame, Hother; exact (Hother Hsame)
    end.
Qed.

End Chains.

(** C5, as stated, fails.  Task 2 and its project 2 exist, the team 9 of the
    project does not: the chain is broken at the team, yet
    [GET /api/tasks/2] answers 403 and not 404. *)
Lemma missing_team_answers_forbidden :
  ownership_chain store0 2 (GetTask (Int 2))
  = Some [(LTask, true); (LProject, true); (LTeam, false)]
  ∧ first_missing [(LTask, true); (LProject, true); (LTeam, false)] = Some LTeam
  ∧ status_of (handle (GetTask (Int 2)) (Some 2) store0) = 403.
Proof. repeat split; reflexivity. Qed.

Lemma chain_checked_before_authorization_witness :
  2 ≠ 0
  ∧ checked_chain store0 2 (DeleteTask (Int 5)) = Some [(LTask, false)]
  ∧ response (handle (DeleteTask (Int 5)) (Some 2) store0) = not_found LTask.
Proof.
  split; [lia|]. split; [reflexivity|].
  refine (proj1 (proj1 (chain_checked_before_authorization store0 2
                          (DeleteTask (Int 5)) [(LTask, false)] _ _) LTask _));
    [lia | reflexivity | reflexivity].
Defined.

(** ** Authorship and team creation *)

Section Creation.
Context {S : Type} `{!Storage S} `{!Schemas} `{!StorageLaws S}.
Implicit Types (st : S) (userId : Z) (req : Request).


(** C8, as amended.  [POST /api/teams] by a signed-in actor answers 400
    when the payload fails validation, 404 "User not found" when the actor
    has no user row, and 403 when the row has another global role than
    ["admin"]; in these cases the store stays as it is.  For an actor whose
    global role is ["admin"] it creates the team with the actor as
    [createdBy], enrols the actor in it, answers 201 with the created team,
    and the member list of that team holds the creator with the role
    ["admin"].  So the route goes through only for a global admin. *)
Theorem team_creation st userId b :
  userId ≠ 0 →
  let out := handle (PostTeams b) (Some userId) st in
  (∀ errors, insertTeamSchema (convertDatesToObjects b) = ZodError errors →
     response out = validation_error errors ∧ store out = st)
  ∧ (passes_validation (PostTeams b) = true →
     getUser st (Int userId) = None →
     response out = {| status := 404; body := message "User not found" |}
     ∧ store out = st)
  ∧ (∀ u, passes_validation (PostTeams b) = true →
     getUser st (Int userId) = Some u → user_role u ≠ "admin" →
     response out
     = {| status := 403; body := message "Only admin users can create teams" |}
     ∧ store out = st)
  ∧ (∀ u data, insertTeamSchema (convertDatesToObjects b) = ParseOk data →
     getUser st (Int userId) = Some u → user_role u = "admin" →
     let created := createTeam st (<[ "createdBy" := JNum userId ]> data) in
     let enrolled :=
       addTeamMember created.1
         {[ "teamId" := JNum (team_id created.2); "userId" := JNum userId;
            "role" := JStr "admin" ]} in
     response out = {| status := 201; body := JObj (team_obj created.2) |}
     ∧ store out = enrolled.1
     ∧ {| member_teamId := team_id created.2; member_userId := userId;
          member_role := "admin" |}
       ∈ getTeamMembers (store out) (Int (team_id created.2)))
  ∧ (status_of out = 201 →
     ∃ u, getUser st (Int userId) = Some u ∧ user_role u = "admin").
Proof.
  intros Hid out. subst out. enter Hid.
  unfold passes_validation, validateBody, post_api_teams. simpl.
  split; [|split; [|split; [|split]]].
  - by intros errors ->.
  - intros Hvalid ->. by destruct (insertTeamSchema _).
  - intros u Hvalid -> Hrole. destruct (insertTeamSchema _); [|done].
    by rewrite bool_decide_true by done.
  - intros u data -> -> Hrole. rewrite bool_decide_false by auto.
    destruct (createTeam st _) as [st1 team] eqn:Hteam. simpl.
    pose proof (addTeamMember_stored st1
                  {[ "teamId" := JNum (team_id team); "userId" := JNum userId;
                     "role" := JStr "admin" ]}
                  (team_id team) userId "admin") as Hlaw.
    destruct (addTeamMember st1 _) as [st2 m]. simpl.
    split; [done|]. split; [done|].
    destruct Hlaw as [-> Hin]; [by simplify_map_eq..|done].
  - repeat case_match; simplify_eq/=; try done. intros _.
    eexists. split; [done|].
    match goal with
    | Hrole : bool_decide _ = false |- _ => apply bool_decide_eq_false in Hrole
    end.
    by destruct (decide (user_role u = "admin")).
Qed.

End Creation.

Import MemStorageFacts.


Import Scenario.

(** C8, as stated, fails on "(403 otherwise)".  User 9 is signed in and has
    no user row, hence no global role "admin": the answer is 404.  User 2
    has the global role "member" and sends a body without the name that the
    schema asks for: the answer is 400. *)
Lemma team_creation_not_always_forbidden :
  getUser store0 (Int 9) = None
  ∧ status_of (handle (PostTeams {[ "name" := JStr "Ops" ]}) (Some 9) store0) = 404
  ∧ user_role <$> getUser store0 (Int 2) = Some "member"
  ∧ status_of (@handle MemStore MemStorage.storage named_teams
                 (PostTeams ∅) (Some 2) store0) = 400.
Proof. repeat split; reflexivity. Qed.

(** The admin signs in with the bootstrap credentials on an empty store and
    creates the team "Eng": the team is created and the creator is in its
    member list as an admin. *)
Lemma team_creation_witness :
  1 ≠ 0
  ∧ session (handle (PostAuthLogin bootstrap) None MemStorage.empty) = Some 1
  ∧ response (handle (PostTeams {[ "name" := JStr "Eng" ]}) (Some 1) bootstrapped)
    = {| status := 201;
         body := JObj (team_obj {| team_id := 1; team_name := "Eng";
                                   team_description := None;
                                   team_createdBy := 1 |}) |}
  ∧ {| member_teamId := 1; member_userId := 1; member_role := "admin" |}
    ∈ getTeamMembers
        (store (handle (PostTeams {[ "name" := JStr "Eng" ]}) (Some 1) bootstrapped))
        (Int 1).
Proof.
  split; [lia|]. split; [reflexivity|].
  destruct (proj1 (proj2 (proj2 (proj2
              (team_creation bootstrapped 1 {[ "name" := JStr "Eng" ]} ltac:(lia)))))
              {| user_id := 1; user_username := "admin";
                 user_email := "admin@teamflow.com"; user_password := "pass123";
                 user_fullName := Some "Administrator"; user_avatar := None;
                 user_role := "admin"; user_userType := "normal" |}
              {[ "name" := JStr "Eng" ]})
    as (Hres & _ & Hin); [reflexivity..|].
  split; [exact Hres | exact Hin].
Defined.

(** ** Deleting what is not there *)

Section DeleteMissing.
Context {S : Type} `{!Storage S} `{!Schemas} `{!StorageLaws S}.
Implicit Types (st : S) (userId : Z) (req : Request).

Lemma existsb_find_member userId u l :
  existsb (λ m, num_seq (Int (member_userId m)) u) l = false →
  num_seq (Int userId) u = true →
  find_member userId l = None.
Proof.
  intros Hnone Hself. destruct u as [|z]; [done|].
  apply bool_decide_eq_true in Hself as <-.
  unfold find_member. induction l as [|m l IH]; [done|].
  simpl in *. apply orb_false_elim in Hnone as [Hm Hl].
  apply bool_decide_eq_false in Hm. rewrite bool_decide_false by done. auto.
Qed.

(** C9, as amended.  For a signed-in actor:
    - deleting a team, a project, a task, a comment, a file or a message
      whose identifier resolves to no row answers 404 and leaves the store
      as it is; so does an identifier that is [NaN], and so does the repeat
      of a deletion that went through;
    - deleting a user that does not exist answers 404 to a global admin and
      403 to anyone else;
    - removing a membership that does not exist answers 404 when the team is
      missing or the actor is an admin of the team, and 403 otherwise;
    and the store is left as it is in each of these cases. *)
Theorem deletion_of_missing_target st userId req :
  userId ≠ 0 →
  is_delete req = true →
  let out := handle req (Some userId) st in
  (target_resolves st req = false → lookup_first req = true →
   status_of out = 404 ∧ store out = st)
  ∧ (lookup_first req = true → target_id req = Some NaN →
     status_of out = 404 ∧ store out = st)
  ∧ (lookup_first req = true → status_of out = 200 →
     let again := handle req (Some userId) (store out) in
     status_of again = 404 ∧ store again = store out)
  ∧ (target_resolves st req = false → ∀ id, req = DeleteUser id →
     status_of out
     = (if not_global_admin (getUser st (Int userId)) then 403 else 404)
     ∧ store out = st)
  ∧ (target_resolves st req = false → ∀ t u, req = DeleteTeamMember t u →
     status_of out
     = (if found (getTeam st t)
           && negb (bool_decide (team_role st t userId = Some "admin"))
        then 403 else 404)
     ∧ store out = st).
Proof.
  intros Hid Hdel out. subst out.
  assert (Hfirst : target_resolves st req = false → lookup_first req = true →
            status_of (handle req (Some userId) st) = 404
            ∧ store (handle req (Some userId) st) = st).
  { intros Hnone Hlookup. destruct req; try discriminate Hlookup;
      simpl in Hnone; enter Hid.
    - unfold delete_api_teams_id. by destruct (getTeam st id).
    - unfold delete_api_projects_id. by destruct (getProject st id).
    - unfold delete_api_tasks_id. by destruct (getTask st id).
    - unfold delete_api_comments_id. by destruct (getComment st id).
    - unfold delete_api_files_id. by destruct (getFile st id).
    - unfold delete_api_messages_id. by destruct (getMessage st id). }
  split; [done|]. split; [|split; [|split]].
  - (* NaN *)
    intros Hlookup Hnan. apply Hfirst; [|done].
    destruct req; try discriminate Hlookup; simplify_eq/=.
    + by rewrite getTeam_NaN.
    + by rewrite getProject_NaN.
    + by rewrite getTask_NaN.
    + by rewrite getComment_NaN.
    + by rewrite getFile_NaN.
    + by rewrite getMessage_NaN.
  - (* the repeat of a deletion *)
    intros Hlookup Hok. simpl.
    assert (Hgone : target_resolves (store (handle req (Some userId) st)) req = false).
    { destruct req; try discriminate Hlookup; revert Hok; enter Hid.
      - unfold delete_api_teams_id.
        destruct (getTeam st id) as [team|] eqn:Hteam; [|done].
        apply getTeam_id in Hteam as ->. case_match; [done|]. intros _.
        pose proof (deleteTeam_gone st (Int (team_id team))) as Hlaw.
        destruct (deleteTeam _ _). simpl in *. by rewrite Hlaw.
      - unfold delete_api_projects_id.
        destruct (getProject st id) as [project|] eqn:Hproject; [|done].
        apply getProject_id in Hproject as ->. case_match; [done|]. intros _.
        pose proof (deleteProject_gone st (Int (project_id project))) as Hlaw.
        destruct (deleteProject _ _). simpl in *. by rewrite Hlaw.
      - unfold delete_api_tasks_id.
        destruct (getTask st id) as [task|] eqn:Htask; [|done].
        apply getTask_id in Htask as ->.
        repeat case_match; try done. intros _.
        pose proof (deleteTask_gone st (Int (task_id task))) as Hlaw.
        destruct (deleteTask _ _). simplify_eq/=. by rewrite Hlaw.
      - unfold delete_api_comments_id.
        pose proof (deleteComment_gone st id) as Hlaw.
        destruct (deleteComment st id).
        repeat case_match; simplify_eq/=; try done; intros _; by rewrite Hlaw.
      - unfold delete_api_files_id.
        pose proof (deleteFile_gone st id) as Hlaw.
        destruct (deleteFile st id).
        repeat case_match; simplify_eq/=; try done; intros _; by rewrite Hlaw.
      - unfold delete_api_messages_id.
        pose proof (deleteMessage_gone st id) as Hlaw.
        destruct (deleteMessage st id).
        repeat case_match; simplify_eq/=; try done; intros _; by rewrite Hlaw. }
    set (st1 := store (handle req (Some userId) st)) in *. clearbody st1.
    clear Hfirst Hok.
    destruct req; try discriminate Hlookup; simpl in Hgone; enter Hid.
    + unfold delete_api_teams_id. by destruct (getTeam st1 id).
    + unfold delete_api_projects_id. by destruct (getProject st1 id).
    + unfold delete_api_tasks_id. by destruct (getTask st1 id).
    + unfold delete_api_comments_id. by destruct (getComment st1 id).
    + unfold delete_api_files_id. by destruct (getFile st1 id).
    + unfold delete_api_messages_id. by destruct (getMessage st1 id).
  - (* users *)
    intros Hnone id ->. simpl in Hnone. enter Hid. unfold delete_api_users_id.
    destruct (not_global_admin (getUser st (Int userId))) eqn:Hadmin; [done|].
    destruct (num_seq (Int userId) id) eqn:Hself.
    + apply num_seq_eq in Hself as <-.
      by destruct (getUser st (Int userId)).
    + destruct (getUser st id) eqn:Huser; [done|].
      by rewrite (deleteUser_missing _ _ Huser).
  - (* memberships *)
    intros Hnone t u ->. simpl in Hnone. enter Hid.
    unfold delete_api_teams_teamId_members_userId, team_role.
    destruct (getTeam st t) as [team|]; [|done]. simpl in *.
    destruct (find_member userId (getTeamMembers st t)) as [m|] eqn:Hm; simpl.
    + destruct (decide (member_role m = "admin")) as [Hadmin|Hother].
      * rewrite (bool_decide_false (member_role m ≠ "admin")) by auto.
        rewrite (bool_decide_true (Some (member_role m) = Some "admin"))
          by congruence.
        simpl. by rewrite (removeTeamMember_missing _ _ _ Hnone).
      * rewrite (bool_decide_true (member_role m ≠ "admin")) by done.
        rewrite (bool_decide_false (Some (member_role m) = Some "admin"))
          by congruence.
        simpl. destruct u as [|z]; [done|]. case_bool_decide as Hself; [|done].
        subst z. exfalso.
        rewrite (existsb_find_member userId (Int userId) _ Hnone) in Hm; [done|].
        apply num_seq_Int_refl.
    + done.
Qed.

End DeleteMissing.

(** C9, as stated, fails for [DELETE /api/users/:id]: there is no user 99,
    and user 2, who is no global admin, gets 403 rather than 404. *)
Lemma delete_of_missing_user_forbidden :
  is_delete (DeleteUser (Int 99)) = true
  ∧ target_resolves store0 (DeleteUser (Int 99)) = false
  ∧ status_of (handle (DeleteUser (Int 99)) (Some 2) store0) = 403.
Proof. repeat split; reflexivity. Qed.

Lemma deletion_of_missing_target_witness :
  2 ≠ 0
  ∧ is_delete (DeleteFile NaN) = true
  ∧ status_of (handle (DeleteFile NaN) (Some 2) store0) = 404.
Proof.
  split; [lia|]. split; [reflexivity|].
  refine (proj1 (proj1 (proj2 (deletion_of_missing_target store0 2 (DeleteFile NaN) _ _))
                   _ _));
    [lia | reflexivity | reflexivity | reflexivity].
Defined.

(** ** The password in responses *)

Section Secrets.
Context {S : Type} `{!Storage S} `{!Schemas}.
Implicit Types (st : S) (userId : Z).

Lemma userWithoutPassword_hides (user : obj) :
  userWithoutPassword user !! "password" = None.
Proof. apply lookup_delete_eq. Qed.

Lemma user_obj_password (u : User) :
  user_obj u !! "password" = Some (JStr (user_password u)).
Proof. unfold user_obj. by simplify_map_eq. Qed.

(** [GET /api/teams/:teamId/messages] replaces the user of every message by
    a copy without the password. *)
Lemma messages_listing_hides_password st userId teamId :
  userId ≠ 0 →
  let out := handle (GetTeamMessages teamId) (Some userId) st in
  status_of out = 200 →
  ∃ items,
    body (response out) = JArr items
    ∧ Forall (λ j, ∃ o u, j = JObj o ∧ o !! "user" = Some (JObj u)
                          ∧ u !! "password" = None) items.
Proof.
  intros Hid out. subst out. enter Hid. unfold get_api_teams_teamId_messages.
  repeat case_match; simplify_eq/=; try done. intros _.
  eexists. split; [done|].
  apply Forall_fmap, Forall_forall. intros msg _. simpl.
  eexists _, _. split; [done|]. split; [apply lookup_insert_eq|].
  apply userWithoutPassword_hides.
Qed.

(** [GET /api/tasks/:taskId/comments] hands the rows of [getCommentsByTask]
    out as they are, the user of each comment with its password. *)
Lemma comments_listing_keeps_password st userId taskId :
  userId ≠ 0 →
  let out := handle (GetTaskComments taskId) (Some userId) st in
  status_of out = 200 →
  ∃ items,
    body (response out) = JArr items
    ∧ Forall (λ j, ∃ o u, j = JObj o ∧ o !! "user" = Some (JObj u)
                          ∧ is_Some (u !! "password")) items.
Proof.
  intros Hid out. subst out. enter Hid. unfold get_api_tasks_taskId_comments.
  repeat case_match; simplify_eq/=; try done. intros _.
  eexists. split; [done|].
  apply Forall_fmap, Forall_forall. intros c _. simpl.
  eexists _, _. split; [done|]. split; [apply lookup_insert_eq|].
  rewrite user_obj_password. by eexists.
Qed.

End Secrets.

(** C7 (defect of the code).  User 2, a member of team 1, lists the comments
    of task 1: the answer is 200 and its body holds the [password] of the
    authors, while the listing of the messages of team 1 does not. *)
Theorem comments_listing_shows_password :
  let comments := handle (GetTaskComments (Int 1)) (Some 2) store0 in
  let messages := handle (GetTeamMessages (Int 1)) (Some 2) store0 in
  status_of comments = 200
  ∧ mentions "password" (body (response comments)) = true
  ∧ status_of messages = 200
  ∧ mentions "password" (body (response messages)) = false.
Proof. repeat split; vm_compute; reflexivity. Qed.

(** * Further properties of the handlers *)

Import Scenario.

(** ** The middleware *)

Section Middleware.
Context {S : Type} `{!Storage S} `{!Schemas}.
Implicit Types (st : S) (userId : Z) (req : Request) (sess : option Z).

(** X1.  Without a user in the session ([userId] absent or [0]) every route
    but login and logout answers 401 "Unauthorized"; the store and the
    session stay as they are. *)
Theorem signed_out_request_refused st sess req :
  behind_requireAuth req = true →
  sess = None ∨ sess = Some 0 →
  handle req sess st
  = {| response := {| status := 401; body := message "Unauthorized" |};
       store := st; session := sess |}.
Proof.
  intros Hroute [-> | ->]; destruct req; try discriminate Hroute; reflexivity.
Qed.

(** X2.  A body that the schema of its route rejects ends the request of a
    signed-in user with 400 and the issues of the schema, before the handler
    reads the store: the store stays as it is, whoever the user is. *)
Theorem rejected_body_stops_request st userId req errors :
  userId ≠ 0 →
  validation req = Some (ZodError errors) →
  handle req (Some userId) st
  = {| response := validation_error errors; store := st;
       session := Some userId |}.
Proof.
  intros Hid Hrejected.
  destruct req; try discriminate Hrejected; simpl in Hrejected;
    injection Hrejected as Hschema; unfold handle;
    rewrite (authed_signed_in _ _ _ Hid); unfold validateBody;
    by rewrite Hschema.
Qed.

(** X3.  A request that is answered 401 or 403 has no effect: the store and
    the session are the ones it found. *)
Theorem refused_request_changes_nothing st sess req :
  let out := handle req sess st in
  status_of out = 401 ∨ status_of out = 403 →
  store out = st ∧ session out = sess.
Proof.
  intros out. subst out. unfold status_of.
  destruct req; simpl;
    unfold authed, requireAuth, validateBody, post_api_auth_login,
      post_api_auth_logout;
    unfold get_api_auth_me, get_api_users, post_api_users, get_api_users_id,
      put_api_users_id, delete_api_users_id, get_api_teams, post_api_teams,
      get_api_teams_id, put_api_teams_id, delete_api_teams_id,
      get_api_teams_id_members, get_api_teams_id_members_current,
      post_api_teams_id_members, delete_api_teams_teamId_members_userId,
      get_api_projects, post_api_projects, get_api_projects_id,
      put_api_projects_id, delete_api_projects_id, get_api_tasks,
      post_api_tasks, get_api_tasks_id, put_api_tasks_id,
      put_api_tasks_id_status, delete_api_tasks_id,
      get_api_tasks_taskId_comments, post_api_tasks_taskId_comments,
      delete_api_comments_id, get_api_projects_projectId_files,
      get_api_tasks_taskId_files, post_api_files, delete_api_files_id,
      get_api_teams_teamId_messages, post_api_teams_teamId_messages,
      delete_api_messages_id, reply;
    repeat case_match; simplify_eq/=; intros [?|?]; simplify_eq/=; done.
Qed.

(** X4.  The routes registered with [app.get] only read: whatever they
    answer, the store and the session are the ones they found. *)
Theorem get_routes_change_nothing st sess req :
  is_get req = true →
  let out := handle req sess st in
  store out = st ∧ session out = sess.
Proof.
  intros Hget out. subst out.
  destruct req; try discriminate Hget; simpl;
    unfold authed, requireAuth;
    unfold get_api_auth_me, get_api_users, get_api_users_id, get_api_teams,
      get_api_teams_id, get_api_teams_id_members,
      get_api_teams_id_members_current, get_api_projects, get_api_projects_id,
      get_api_tasks, get_api_tasks_id, get_api_tasks_taskId_comments,
      get_api_projects_projectId_files, get_api_tasks_taskId_files,
      get_api_teams_teamId_messages, reply;
    repeat case_match; simplify_eq/=; done.
Qed.

End Middleware.

Lemma signed_out_request_refused_witness :
  behind_requireAuth (DeleteTeam (Int 1)) = true
  ∧ status_of (handle (DeleteTeam (Int 1)) (Some 0) store0) = 401.
Proof.
  split; [reflexivity|].
  unfold status_of.
  by rewrite (signed_out_request_refused store0 (Some 0) (DeleteTeam (Int 1))
                eq_refl (or_intror eq_refl)).
Defined.

(** Team creation by user 2, who is no global admin, with a body without a
    name: the schema rejects it and the answer is 400, not 403. *)
Lemma rejected_body_stops_request_witness :
  2 ≠ 0
  ∧ status_of (@handle MemStore MemStorage.storage named_teams
                 (PostTeams ∅) (Some 2) store0) = 400.
Proof.
  split; [lia|]. unfold status_of.
  rewrite (@rejected_body_stops_request MemStore MemStorage.storage named_teams
             store0 2 (PostTeams ∅) (JArr [JStr "name"]));
    [reflexivity | lia | reflexivity].
Defined.

Lemma refused_request_changes_nothing_witness :
  status_of (handle (DeleteProject (Int 1)) (Some 2) store0) = 403
  ∧ store (handle (DeleteProject (Int 1)) (Some 2) store0) = store0.
Proof.
  split; [reflexivity|].
  refine (proj1 (refused_request_changes_nothing store0 (Some 2)
                   (DeleteProject (Int 1)) _)).
  right. reflexivity.
Defined.

Lemma get_routes_change_nothing_witness :
  is_get (GetTaskComments (Int 1)) = true
  ∧ store (handle (GetTaskComments (Int 1)) (Some 2) store0) = store0.
Proof.
  split; [reflexivity|].
  refine (proj1 (get_routes_change_nothing store0 (Some 2) (GetTaskComments (Int 1)) _)).
  reflexivity.
Defined.

(** ** Signing in *)

Section Login.
Context {S : Type} `{!Storage S} `{!Schemas}.
Implicit Types (st : S) (userId : Z) (sess : option Z) (b : obj).

(** X5.  The bootstrap credentials sign in as the user named "admin",
    whatever password that user has stored (the stored password is not
    compared).  When there is such a user the store is not written; when
    there is none, the user is created with the global role "admin".  The
    session holds the user's id and the body is the user without the
    password. *)
Theorem bootstrap_login st sess b :
  b !! "username" = Some (JStr "admin") →
  b !! "password" = Some (JStr "pass123") →
  let out := handle (PostAuthLogin b) sess st in
  let created :=
    createUser st {[ "username" := JStr "admin"; "password" := JStr "pass123";
                     "email" := JStr "admin@teamflow.com";
                     "fullName" := JStr "Administrator";
                     "role" := JStr "admin" ]} in
  let admin := default created.2 (getUserByUsername st "admin") in
  response out
  = {| status := 200; body := JObj (userWithoutPassword (user_obj admin)) |}
  ∧ session out = Some (user_id admin)
  ∧ store out = (if found (getUserByUsername st "admin") then st else created.1).
Proof.
  intros Hname Hpass out created admin. subst out created admin.
  simpl. unfold post_api_auth_login. rewrite Hname, Hpass. simpl.
  destruct (getUserByUsername st "admin"); [done|].
  by destruct (createUser _ _).
Qed.

(** X6.  With other credentials, signing in succeeds exactly when the
    username is a string that names a user and the password is that user's
    stored password, compared for equality; the session then holds the
    user's id.  In every other case the answer is the same 401 "Invalid
    credentials", for an unknown user as for a wrong password, and the
    session stays as it is.  The store is not written in either case. *)
Theorem login_by_stored_password st sess b :
  is_str (b !! "username") "admin" && is_str (b !! "password") "pass123" = false →
  let out := handle (PostAuthLogin b) sess st in
  store out = st
  ∧ (∀ name user,
       b !! "username" = Some (JStr name) →
       getUserByUsername st name = Some user →
       b !! "password" = Some (JStr (user_password user)) →
       response out
       = {| status := 200; body := JObj (userWithoutPassword (user_obj user)) |}
       ∧ session out = Some (user_id user))
  ∧ (status_of out ≠ 200 →
     response out = {| status := 401; body := message "Invalid credentials" |}
     ∧ session out = sess)
  ∧ (status_of out = 200 →
     ∃ name user,
       b !! "username" = Some (JStr name)
       ∧ getUserByUsername st name = Some user
       ∧ b !! "password" = Some (JStr (user_password user))).
Proof.
  intros Hother out. subst out. unfold status_of. simpl.
  unfold post_api_auth_login. rewrite Hother.
  split; [by repeat case_match|]. split; [|split].
  - intros name user -> -> ->. simpl. by rewrite bool_decide_true by done.
  - by repeat case_match.
  - destruct (b !! "username") as [[]|] eqn:Hname; simpl; try done.
    destruct (getUserByUsername st s) as [user|] eqn:Huser; [|done].
    destruct (b !! "password") as [[]|] eqn:Hpass; simpl; try done.
    case_bool_decide as Hsame; simpl; [|done]. intros _.
    exists s, user. by subst.
Qed.

End Login.

(** The stored admin has the password "changed"; the bootstrap credentials
    still sign in as that user. *)
Lemma bootstrap_login_witness :
  bootstrap !! "username" = Some (JStr "admin")
  ∧ bootstrap !! "password" = Some (JStr "pass123")
  ∧ user_password <$> getUserByUsername rekeyed "admin" = Some "changed"
  ∧ status_of (handle (PostAuthLogin bootstrap) None rekeyed) = 200
  ∧ session (handle (PostAuthLogin bootstrap) None rekeyed) = Some 1.
Proof.
  split; [reflexivity|]. split; [reflexivity|]. split; [reflexivity|].
  destruct (bootstrap_login rekeyed None bootstrap) as (Hres & Hsess & _);
    [reflexivity..|].
  unfold status_of. rewrite Hres, Hsess. split; reflexivity.
Defined.

Lemma login_by_stored_password_witness :
  status_of
    (handle (PostAuthLogin {[ "username" := JStr "bob"; "password" := JStr "guess" ]})
       None store0) = 401
  ∧ session
      (handle (PostAuthLogin {[ "username" := JStr "bob";
                               "password" := JStr "secret-bob" ]})
         None store0) = Some 2.
Proof.
  split.
  - reflexivity.
  - destruct (login_by_stored_password store0 None
                {[ "username" := JStr "bob"; "password" := JStr "secret-bob" ]})
      as (_ & Hok & _); [reflexivity|].
    refine (proj2 (Hok "bob" (mkUser 2 "bob" "member") _ _ _)); reflexivity.
Defined.

(** ** Managing users *)

Section Users.
Context {S : Type} `{!Storage S} `{!Schemas}.
Implicit Types (st : S) (userId : Z) (sess : option Z) (b : obj).

(** X7.  [PUT /api/users/:id] answers 403 exactly when the actor is no
    global admin and either names another user or sends a truthy [role];
    then the store stays as it is.  Otherwise the update is handed to the
    store with the body as it came: 404 when the store finds no such user,
    200 with the updated user otherwise. *)
Theorem user_update_authorization st userId id b :
  userId ≠ 0 →
  let out := handle (PutUser id b) (Some userId) st in
  let refused :=
    not_global_admin (getUser st (Int userId))
    && (negb (num_seq (Int userId) id) || truthy (b !! "role")) in
  (refused = true → status_of out = 403 ∧ store out = st)
  ∧ (refused = false →
     store out = (updateUser st id b).1
     ∧ response out
       = match (updateUser st id b).2 with
         | Some updated =>
             {| status := 200;
                body := JObj (userWithoutPassword (user_obj updated)) |}
         | None => {| status := 404; body := message "User not found" |}
         end).
Proof.
  intros Hid out refused. subst out refused.
  unfold status_of, handle. rewrite (authed_signed_in _ _ _ Hid).
  cbn [response store]. unfold put_api_users_id.
  destruct (not_global_admin _), (num_seq _ _), (truthy _); simpl;
    (split; [try done | intros Hno; try done]);
    by destruct (updateUser st id b) as [? []].
Qed.

(** X8.  Nobody deletes the own account: [DELETE /api/users/:id] with the
    actor's own id answers 400 to a global admin and 403 to anyone else,
    and the store stays as it is. *)
Theorem own_account_is_not_deleted st userId :
  userId ≠ 0 →
  let out := handle (DeleteUser (Int userId)) (Some userId) st in
  status_of out = (if not_global_admin (getUser st (Int userId)) then 403 else 400)
  ∧ store out = st.
Proof.
  intros Hid out. subst out.
  unfold status_of, handle. rewrite (authed_signed_in _ _ _ Hid).
  cbn [response store]. unfold delete_api_users_id.
  destruct (not_global_admin _); [done|]. by rewrite num_seq_Int_refl.
Qed.

(** X9.  [POST /api/users] with a body that passes validation creates a user
    exactly when the actor is a global admin and neither the username nor
    the email of the parsed body is taken; a taken username or email
    answers 400, a missing admin role 403, and in these cases the store
    stays as it is.  The created user comes back without the password. *)
Theorem user_creation st userId b data :
  userId ≠ 0 →
  insertUserSchema (convertDatesToObjects b) = ParseOk data →
  let out := handle (PostUsers b) (Some userId) st in
  let free :=
    negb (not_global_admin (getUser st (Int userId)))
    && negb (found (named getUserByUsername st (data !! "username")))
    && negb (found (named getUserByEmail st (data !! "email"))) in
  (free = true →
   store out = (createUser st data).1
   ∧ response out
     = {| status := 201;
          body := JObj (userWithoutPassword (user_obj (createUser st data).2)) |})
  ∧ (free = false →
     store out = st
     ∧ status_of out
       = if not_global_admin (getUser st (Int userId)) then 403 else 400).
Proof.
  intros Hid Hdata out free. subst out free. enter Hid.
  unfold validateBody, post_api_users. rewrite Hdata.
  destruct (not_global_admin _); simpl; [done|].
  destruct (named getUserByUsername _ _); simpl; [done|].
  destruct (named getUserByEmail _ _); simpl; [done|].
  by destruct (createUser st data).
Qed.

End Users.

Lemma user_update_authorization_witness :
  2 ≠ 0
  ∧ status_of (handle (PutUser (Int 2) {[ "role" := JStr "admin" ]}) (Some 2) store0)
    = 403.
Proof.
  split; [lia|].
  refine (proj1 (proj1 (user_update_authorization store0 2 (Int 2)
                          {[ "role" := JStr "admin" ]} _) _));
    [lia | reflexivity].
Defined.

Lemma own_account_is_not_deleted_witness :
  1 ≠ 0 ∧ status_of (handle (DeleteUser (Int 1)) (Some 1) store0) = 400.
Proof.
  split; [lia|].
  refine (proj1 (own_account_is_not_deleted store0 1 _)). lia.
Defined.

Lemma user_creation_witness :
  1 ≠ 0
  ∧ status_of (handle (PostUsers {[ "username" := JStr "bob";
                                    "email" := JStr "new@teamflow.com" ]})
                 (Some 1) store0) = 400.
Proof.
  split; [lia|].
  refine (proj2 (proj2 (user_creation store0 1
                          {[ "username" := JStr "bob";
                             "email" := JStr "new@teamflow.com" ]} _ _ _) _));
    [lia | reflexivity | reflexivity].
Defined.

(** ** Dates in request bodies *)

Section Dates.
Implicit Types (b : obj) (k : string).

Lemma convertDatesToObjects_lookup b k :
  convertDatesToObjects b !! k
  = (λ v, if bool_decide (k ∈ dateFields) && truthy (Some v) then
            match v with
            | JStr _ => JDate v
            | _ => v
            end
          else v) <$> b !! k.
Proof.
  unfold convertDatesToObjects. rewrite map_lookup_imap.
  by destruct (b !! k).
Qed.

(** X10.  [convertDatesToObjects] keeps the keys of the body and changes a
    value only when the key is one of [startDate], [dueDate], [createdAt],
    [updatedAt] and the value is a non-empty string, which it wraps into a
    [Date]; the empty string and values of other types stay under these
    keys as they are, and so does every other key. *)
Theorem convertDatesToObjects_touches_date_strings b k :
  (b !! k = None → convertDatesToObjects b !! k = None)
  ∧ (∀ s, k ∈ dateFields → s ≠ "" → b !! k = Some (JStr s) →
     convertDatesToObjects b !! k = Some (JDate (JStr s)))
  ∧ (∀ v, b !! k = Some v →
     k ∉ dateFields ∨ v = JStr "" ∨ (∀ s, v ≠ JStr s) →
     convertDatesToObjects b !! k = Some v).
Proof.
  rewrite convertDatesToObjects_lookup. split; [|split].
  - by intros ->.
  - intros s Hk Hs ->. simpl. by rewrite !bool_decide_true by done.
  - intros v -> Hcase. simpl. f_equal.
    destruct Hcase as [Hk | [-> | Hv]].
    + by rewrite bool_decide_false by done.
    + by case_bool_decide.
    + destruct v; try by repeat case_match. by destruct (Hv s).
Qed.

(** X11.  Converting twice is converting once: a body that went through
    [convertDatesToObjects] comes out of it unchanged. *)
Theorem convertDatesToObjects_idempotent b :
  convertDatesToObjects (convertDatesToObjects b) = convertDatesToObjects b.
Proof.
  apply map_eq. intros k. rewrite !convertDatesToObjects_lookup.
  destruct (b !! k) as [v|]; [|done]. simpl. f_equal.
  destruct (bool_decide (k ∈ dateFields)); simpl; [|done].
  destruct v as [|flag|z|s| | |]; simpl; try done.
  - by destruct flag.
  - destruct (bool_decide (z ≠ 0)) eqn:Hz; simpl; by rewrite Hz.
  - destruct (bool_decide (s ≠ "")) eqn:Hs; simpl; [done|]. by rewrite Hs.
Qed.

(** After the two coercions of [POST /api/projects], [startDate] and
    [dueDate] hold a [Date] whenever they hold anything truthy, and every
    other key of the body is as it was. *)
Lemma project_dates_are_dates b k :
  let coerced := ensureDate "dueDate" (ensureDate "startDate" b) in
  (k = "startDate" ∨ k = "dueDate" → truthy (coerced !! k) = true →
   ∃ v, coerced !! k = Some (JDate v))
  ∧ (k ≠ "startDate" → k ≠ "dueDate" → coerced !! k = b !! k).
Proof.
  intros coerced. subst coerced.
  assert (Hat : ∀ key (o : obj), truthy (ensureDate key o !! key) = true →
                  ∃ v, ensureDate key o !! key = Some (JDate v)).
  { intros key o. unfold ensureDate.
    destruct (o !! key) as [v|] eqn:Hv; [|by rewrite Hv].
    destruct v as [|flag|z|s|d|l|fields]; simpl.
    - by rewrite Hv.
    - destruct flag; [rewrite lookup_insert_eq; intros _; by eexists | by rewrite Hv].
    - destruct (bool_decide (z ≠ 0)) eqn:Hz;
        [rewrite lookup_insert_eq; intros _; by eexists|].
      rewrite Hv. simpl. by rewrite Hz.
    - destruct (bool_decide (s ≠ "")) eqn:Hs;
        [rewrite lookup_insert_eq; intros _; by eexists|].
      rewrite Hv. simpl. by rewrite Hs.
    - rewrite Hv. intros _. by eexists.
    - rewrite lookup_insert_eq. intros _. by eexists.
    - rewrite lookup_insert_eq. intros _. by eexists. }
  assert (Hother : ∀ key key' (o : obj), key' ≠ key →
                     ensureDate key o !! key' = o !! key').
  { intros key key' o Hne. unfold ensureDate.
    repeat case_match; try done; by rewrite lookup_insert_ne. }
  split.
  - intros [-> | ->]; [|by apply Hat].
    rewrite Hother by done. apply Hat.
  - intros Hs Hd. by rewrite !Hother.
Qed.

End Dates.

Lemma convertDatesToObjects_touches_date_strings_witness :
  convertDatesToObjects {[ "dueDate" := JStr "2024-05-01"; "title" := JStr "x" ]}
    !! "dueDate"
  = Some (JDate (JStr "2024-05-01")).
Proof.
  refine (proj1 (proj2 (convertDatesToObjects_touches_date_strings
                          {[ "dueDate" := JStr "2024-05-01"; "title" := JStr "x" ]}
                          "dueDate")) "2024-05-01" _ _ _);
    [by repeat constructor | discriminate | reflexivity].
Defined.

Lemma project_dates_are_dates_witness :
  ∃ v, ensureDate "dueDate" (ensureDate "startDate" {[ "startDate" := JNum 86400000 ]})
         !! "startDate" = Some (JDate v).
Proof.
  refine (proj1 (project_dates_are_dates {[ "startDate" := JNum 86400000 ]}
                   "startDate") _ _);
    [by left | reflexivity].
Defined.

(** ** Query filters *)

Section Filters.
Context {S : Type} `{!Storage S} `{!Schemas}.
Implicit Types (st : S) (userId : Z) (sess : option Z).

(** X12.  In [GET /api/tasks] a [projectId] wins over an [assigneeId]: with a
    usable [projectId] the [assigneeId] is not read at all, so a member of
    the project's team gets the tasks of the project whatever assignee the
    query names. *)
Theorem project_filter_wins st sess projectId assigneeId :
  num_truthy projectId = true →
  handle (GetTasks (Some projectId) assigneeId) sess st
  = handle (GetTasks (Some projectId) None) sess st.
Proof.
  intros Hp. simpl. unfold authed, requireAuth, get_api_tasks. simpl.
  by rewrite Hp.
Qed.

(** X13.  A filter that parses to [0] or [NaN] is no filter:
    [GET /api/projects?teamId=0] is [GET /api/projects], and
    [GET /api/tasks?projectId=0] is [GET /api/tasks] with the rest of the
    query. *)
Theorem falsy_filter_is_no_filter st sess n assigneeId :
  num_truthy n = false →
  handle (GetProjects (Some n)) sess st = handle (GetProjects None) sess st
  ∧ handle (GetTasks (Some n) assigneeId) sess st
    = handle (GetTasks None assigneeId) sess st.
Proof.
  intros Hn. simpl. unfold authed, requireAuth, get_api_projects, get_api_tasks.
  simpl. by rewrite Hn.
Qed.

(** X14.  A member leaves a team on its own: for a team that exists and an
    actor with a membership of any role, removing the actor's own
    membership is handed to the store, 200 when the store removes it.
    Nothing asks whether the actor is the last admin of the team. *)
Theorem member_leaves_team st userId teamId r :
  userId ≠ 0 →
  found (getTeam st teamId) = true →
  team_role st teamId userId = Some r →
  let out := handle (DeleteTeamMember teamId (Int userId)) (Some userId) st in
  store out = (removeTeamMember st teamId (Int userId)).1
  ∧ status_of out = (if (removeTeamMember st teamId (Int userId)).2 then 200 else 404).
Proof.
  intros Hid Hteam Hrole out. subst out.
  unfold status_of, handle. rewrite (authed_signed_in _ _ _ Hid).
  cbn [response store]. unfold delete_api_teams_teamId_members_userId.
  destruct (getTeam st teamId); [|done].
  apply team_role_find in Hrole as (m & -> & _).
  rewrite num_seq_Int_refl, andb_false_r.
  by destruct (removeTeamMember _ _ _) as [? []].
Qed.

End Filters.

Lemma project_filter_wins_witness :
  num_truthy (Int 1) = true
  ∧ status_of (handle (GetTasks (Some (Int 1)) (Some (Int 3))) (Some 2) store0) = 200.
Proof.
  split; [reflexivity|].
  by rewrite (project_filter_wins store0 (Some 2) (Int 1) (Some (Int 3)) eq_refl).
Defined.

Lemma falsy_filter_is_no_filter_witness :
  num_truthy NaN = false
  ∧ handle (GetProjects (Some NaN)) (Some 2) store0
    = handle (GetProjects None) (Some 2) store0.
Proof.
  split; [reflexivity|].
  exact (proj1 (falsy_filter_is_no_filter store0 (Some 2) NaN None eq_refl)).
Defined.

(** The only admin of team 1 leaves it. *)
Lemma member_leaves_team_witness :
  1 ≠ 0
  ∧ team_role store0 (Int 1) 1 = Some "admin"
  ∧ status_of (handle (DeleteTeamMember (Int 1) (Int 1)) (Some 1) store0) = 200.
Proof.
  split; [lia|]. split; [reflexivity|].
  refine (eq_trans (proj2 (member_leaves_team store0 1 (Int 1) "admin" _ _ _)) _);
    [lia | reflexivity | reflexivity | reflexivity].
Defined.

(** ** Membership decides *)

Section Membership.
Context {S : Type} `{!Storage S} `{!Schemas}.
Implicit Types (st : S) (userId : Z) (req : Request).


(** Splits on the rows that the handler at hand looks up. *)
Ltac lookups :=
  match goal with
  | H : context [match ?x with _ => _ end] |- _ => destruct x eqn:?; simplify_eq/=
  | |- context [getTeam ?s ?i] => destruct (getTeam s i) eqn:?; simplify_eq/=
  | |- context [getProject ?s ?i] => destruct (getProject s i) eqn:?; simplify_eq/=
  | |- context [getTask ?s ?i] => destruct (getTask s i) eqn:?; simplify_eq/=
  | |- context [getComment ?s ?i] => destruct (getComment s i) eqn:?; simplify_eq/=
  | |- context [getFile ?s ?i] => destruct (getFile s i) eqn:?; simplify_eq/=
  | |- context [getMessage ?s ?i] => destruct (getMessage s i) eqn:?; simplify_eq/=
  end.


(** X16.  With a membership of either role, a signed-in actor reads what the
    team holds: the members, the messages (each with its author, without the
    password), the projects, a project, its files and its tasks, a task, its
    comments and its files.  The answer is 200 with these rows and nothing
    is written. *)
Theorem member_reads st userId req teamId r view :
  userId ≠ 0 →
  gate_team st req = Some teamId →
  team_role st teamId userId = Some r →
  member_view st req = Some view →
  handle req (Some userId) st
  = {| response := {| status := 200; body := view |}; store := st;
       session := Some userId |}.
Proof.
  intros Hid Hgate Hrole Hview.
  apply team_role_some_member in Hrole.
  destruct req; try discriminate Hview; unfold handle;
    rewrite (authed_signed_in _ _ _ Hid);
    simpl in Hgate, Hview; unfold team_of_task, team_of_project in *;
    simpl in Hgate, Hview;
    unfold get_api_teams_id_members, get_api_projects, get_api_projects_id,
      get_api_tasks, get_api_tasks_id, get_api_tasks_taskId_comments,
      get_api_projects_projectId_files, get_api_tasks_taskId_files,
      get_api_teams_teamId_messages, query_truthy in *;
    repeat lookups;
    rewrite ?Hrole; simpl; by simplify_eq/=.
Qed.

End Membership.


Lemma member_reads_witness :
  2 ≠ 0
  ∧ team_role store0 (Int 1) 2 = Some "member"
  ∧ status_of (handle (GetProjectFiles (Int 1)) (Some 2) store0) = 200.
Proof.
  split; [lia|]. split; [reflexivity|]. unfold status_of.
  erewrite (member_reads store0 2 (GetProjectFiles (Int 1)) (Int 1) "member");
    [reflexivity | lia | reflexivity..].
Defined.

(** ** Creating rows *)

Section Creating.
Context {S : Type} `{!Storage S} `{!Schemas} `{!StorageLaws S}.
Implicit Types (st : S) (userId : Z) (req : Request).

(** X17.  A member of the team named in a body that passes validation
    creates a project: the answer is 201 with the created project and the
    store is the one [createProject] returns for the parsed body after the
    two date coercions.  In that row [startDate] and [dueDate] hold a
    [Date] whenever they hold anything truthy, and every other key is as
    the schema returned it. *)
Theorem project_creation st userId b data r :
  userId ≠ 0 →
  insertProjectSchema (convertDatesToObjects b) = ParseOk data →
  found (getTeam st (to_num (data !! "teamId"))) = true →
  team_role st (to_num (data !! "teamId")) userId = Some r →
  let row := ensureDate "dueDate" (ensureDate "startDate" data) in
  let out := handle (PostProjects b) (Some userId) st in
  response out
  = {| status := 201; body := JObj (project_obj (createProject st row).2) |}
  ∧ store out = (createProject st row).1
  ∧ (∀ k, k = "startDate" ∨ k = "dueDate" → truthy (row !! k) = true →
          ∃ v, row !! k = Some (JDate v))
  ∧ (∀ k, k ≠ "startDate" → k ≠ "dueDate" → row !! k = data !! k).
Proof.
  intros Hid Hdata Hteam Hrole row out. subst row out.
  split; [|split; [|split]].
  - enter Hid. unfold validateBody, post_api_projects. rewrite Hdata.
    destruct (getTeam st _); [|done].
    apply team_role_find in Hrole as (m & -> & _).
    by destruct (createProject st _).
  - enter Hid. unfold validateBody, post_api_projects. rewrite Hdata.
    destruct (getTeam st _); [|done].
    apply team_role_find in Hrole as (m & -> & _).
    by destruct (createProject st _).
  - intros k. apply project_dates_are_dates.
  - intros k. apply project_dates_are_dates.
Qed.

(** X18.  A comment or a message is stored before its author is looked up:
    when the session user has a membership and no user row, the answer is
    500 "Failed to get user", and yet the store is the one that the creation
    returned and holds the new row. *)
Theorem row_stored_before_failed_reply st userId :
  userId ≠ 0 →
  (∀ taskId b data teamId r,
     insertCommentSchema (convertDatesToObjects b) = ParseOk data →
     team_of_task st taskId = Some teamId →
     team_role st teamId userId = Some r →
     let created := createComment st (comment_row taskId userId data) in
     getUser created.1 (Int userId) = None →
     let out := handle (PostTaskComments taskId b) (Some userId) st in
     response out = {| status := 500; body := message "Failed to get user" |}
     ∧ store out = created.1
     ∧ getComment (store out) (Int (comment_id created.2)) = Some created.2)
  ∧ (∀ teamId b data r,
     insertMessageSchema_omit (convertDatesToObjects b) = ParseOk data →
     found (getTeam st teamId) = true →
     team_role st teamId userId = Some r →
     let created := createMessage st (message_row teamId userId data) in
     getUser created.1 (Int userId) = None →
     let out := handle (PostTeamMessages teamId b) (Some userId) st in
     response out = {| status := 500; body := message "Failed to get user" |}
     ∧ store out = created.1
     ∧ getMessage (store out) (Int (message_id created.2)) = Some created.2).
Proof.
  intros Hid. split.
  - intros taskId b data teamId r Hdata Hteam Hrole created Huser out.
    subst created out. revert Huser. enter Hid.
    unfold validateBody, post_api_tasks_taskId_comments, team_of_task,
      team_of_project, comment_row in *.
    rewrite Hdata.
    destruct (getTask st taskId) as [task|]; simplify_eq/=.
    destruct (getProject st _) as [project|]; simplify_eq/=.
    rewrite (team_role_some_member _ _ _ _ Hrole). simpl.
    pose proof (createComment_stored st
                  (<[ "userId" := JNum userId ]> (<[ "taskId" := of_num taskId ]> data)))
      as Hlaw.
    destruct (createComment st _) as [st1 c]. simpl. intros ->.
    by destruct Hlaw.
  - intros teamId b data r Hdata Hteam Hrole created Huser out.
    subst created out. revert Huser. enter Hid.
    unfold validateBody, post_api_teams_teamId_messages, message_row in *.
    rewrite Hdata.
    destruct (getTeam st teamId); [|done].
    rewrite (team_role_some_member _ _ _ _ Hrole). simpl.
    pose proof (createMessage_stored st
                  (<[ "userId" := JNum userId ]> (<[ "teamId" := of_num teamId ]> data)))
      as Hlaw.
    destruct (createMessage st _) as [st1 m]. simpl. intros ->.
    by destruct Hlaw.
Qed.

(** X19.  A member that a team admin adds joins the team of the path,
    whatever team the body names: for a parsed body with a [userId] and a
    [role], the answer is 201 with the membership of that user in the team
    of the path, and the member list of that team holds it. *)
Theorem member_joins_team_of_path st userId teamId b data u r :
  userId ≠ 0 →
  insertTeamMemberSchema (convertDatesToObjects b) = ParseOk data →
  found (getTeam st (Int teamId)) = true →
  team_role st (Int teamId) userId = Some "admin" →
  data !! "userId" = Some (JNum u) →
  data !! "role" = Some (JStr r) →
  let out := handle (PostTeamMembers (Int teamId) b) (Some userId) st in
  let member := {| member_teamId := teamId; member_userId := u; member_role := r |} in
  response out = {| status := 201; body := JObj (member_obj member) |}
  ∧ store out = (addTeamMember st (<[ "teamId" := JNum teamId ]> data)).1
  ∧ member ∈ getTeamMembers (store out) (Int teamId).
Proof.
  intros Hid Hdata Hteam Hrole Hu Hr out member. subst out member. enter Hid.
  unfold validateBody, post_api_teams_id_members. rewrite Hdata.
  destruct (getTeam st _); [|done].
  rewrite (not_team_admin_role _ _ _ _ Hrole), bool_decide_false by auto.
  pose proof (addTeamMember_stored st (<[ "teamId" := JNum teamId ]> data)
                teamId u r) as Hlaw.
  simpl. destruct (addTeamMember st _) as [st1 m]. simpl.
  destruct Hlaw as [-> Hin]; [by simplify_map_eq..|done].
Qed.

End Creating.

Lemma project_creation_witness :
  2 ≠ 0
  ∧ status_of (handle (PostProjects {[ "teamId" := JNum 1; "name" := JStr "App";
                                       "dueDate" := JStr "2024-05-01" ]})
                 (Some 2) store0) = 201.
Proof.
  split; [lia|].
  destruct (project_creation store0 2
              {[ "teamId" := JNum 1; "name" := JStr "App";
                 "dueDate" := JStr "2024-05-01" ]}
              (convertDatesToObjects
                 {[ "teamId" := JNum 1; "name" := JStr "App";
                    "dueDate" := JStr "2024-05-01" ]})
              "member")
    as (Hres & _); [lia | reflexivity..|].
  unfold status_of. by rewrite Hres.
Defined.

(** User 9 is a member of team 1 and has no user row: the comment on task 1
    is stored, the answer is 500. *)
Lemma row_stored_before_failed_reply_witness :
  9 ≠ 0
  ∧ status_of (handle (PostTaskComments (Int 1) {[ "content" := JStr "hi" ]})
                 (Some 9) orphaned) = 500
  ∧ found (getComment
             (store (handle (PostTaskComments (Int 1) {[ "content" := JStr "hi" ]})
                       (Some 9) orphaned))
             (Int 4)) = true.
Proof.
  split; [lia|].
  destruct (proj1 (row_stored_before_failed_reply orphaned 9 ltac:(lia))
              (Int 1) {[ "content" := JStr "hi" ]} {[ "content" := JStr "hi" ]}
              (Int 1) "member")
    as (Hres & _ & Hstored); [reflexivity..|].
  unfold status_of. rewrite Hres. split; [reflexivity|].
  apply (f_equal found) in Hstored. exact Hstored.
Defined.

(** The admin 1 of team 1 adds user 3 with a body that names team 7. *)
Lemma member_joins_team_of_path_witness :
  1 ≠ 0
  ∧ {| member_teamId := 1; member_userId := 3; member_role := "member" |}
    ∈ getTeamMembers
        (store (handle (PostTeamMembers (Int 1)
                          {[ "teamId" := JNum 7; "userId" := JNum 3;
                             "role" := JStr "member" ]})
                  (Some 1) store0))
        (Int 1).
Proof.
  split; [lia|].
  refine (proj2 (proj2 (member_joins_team_of_path store0 1 1
                          {[ "teamId" := JNum 7; "userId" := JNum 3;
                             "role" := JStr "member" ]}
                          {[ "teamId" := JNum 7; "userId" := JNum 3;
                             "role" := JStr "member" ]}
                          3 "member" _ _ _ _ _ _)));
    [lia | reflexivity..].
Defined.

(** ** Success bodies and the password *)

Section Hidden.
Context {S : Type} `{!Storage S} `{!Schemas}.
Implicit Types (st : S) (userId : Z) (sess : option Z).













#[local] Arguments mentions : simpl never.
#[local] Arguments message : simpl never.
#[local] Arguments userWithoutPassword : simpl never.
#[local] Arguments user_obj : simpl never.
#[local] Arguments team_obj : simpl never.
#[local] Arguments member_obj : simpl never.
#[local] Arguments project_obj : simpl never.
#[local] Arguments task_obj : simpl never.
#[local] Arguments file_obj : simpl never.
#[local] Arguments comment_obj : simpl never.
#[local] Arguments message_obj : simpl never.
#[local] Arguments message_with_user_obj : simpl never.
#[local] Arguments sanitizedUser : simpl never.


End Hidden.

